(** * Ayurveda expert system (app.py): retrieval gateway, query routing,
      answer composition and configuration loading.

    The Python program is embedded shallowly.  Text is [string]; every
    character stands for one code point below 256, the range on which
    [str.lower] is the character-wise map [lower_char].  Values whose type the
    program does not fix (index payloads, TOML values) are [PyValue]s.
    Code that calls a collaborator, reports to the Streamlit surface or can
    raise runs in the monad [M]: a state monad over the [Runtime] (the two
    objects the program holds, the state of everything outside it, and the
    list of outward calls made so far) with [Exception] results. *)

From Stdlib Require Import ZArith NArith Ascii String List Bool Lia.
From Stdlib Require Import Floats.PrimFloat Numbers.DecimalString.
From stdpp Require Import base option list strings gmap fin_maps.

Set Warnings "-register-all".
Local Open Scope string_scope.

(** ** Text *)

Definition nl : string := String (ascii_of_nat 10) EmptyString.

(** [str.lower] on one code point below 256: A-Z and the Latin-1 capitals
    (U+00C0-U+00DE without the multiplication sign U+00D7) move up by 32. *)
Definition lower_char (c : ascii) : ascii :=
  let n := N_of_ascii c in
  if ((65 <=? n) && (n <=? 90))%N
     || ((192 <=? n) && (n <=? 222) && negb (n =? 215))%N
  then ascii_of_N (n + 32) else c.

(** [s.lower()] *)
Fixpoint lower (s : string) : string :=
  match s with
  | EmptyString => EmptyString
  | String c t => String (lower_char c) (lower t)
  end.

(** [hay.startswith(needle)] *)
Fixpoint starts_with (needle hay : string) : bool :=
  match needle, hay with
  | EmptyString, _ => true
  | String _ _, EmptyString => false
  | String a n, String b h => if Ascii.eqb a b then starts_with n h else false
  end.

(** [needle in hay] for two [str]: a match at the first position, or in the
    rest. *)
Fixpoint contains (needle hay : string) : bool :=
  starts_with needle hay ||
  match hay with
  | EmptyString => false
  | String _ t => contains needle t
  end.

(** [s.endswith(suffix)] *)
Fixpoint ends_with (suffix s : string) : bool :=
  String.eqb s suffix ||
  match s with
  | EmptyString => false
  | String _ t => ends_with suffix t
  end.

(** [sep.join(parts)] for a list of [str]. *)
Fixpoint join (sep : string) (parts : list string) : string :=
  match parts with
  | [] => EmptyString
  | [p] => p
  | p :: rest => p +:+ sep +:+ join sep rest
  end.

Definition decimal (n : nat) : string := NilEmpty.string_of_uint (Nat.to_uint n).

(** ** Contact information constants *)

Definition SUPPORT_EMAIL : string := "support@myayurhealth.com".
Definition SUPPORT_PHONE : string := "+1 (555) 123-4567".

(** ** Dynamically typed values and exceptions *)

Inductive PyValue : Type :=
| PyNone
| PyBool (b : bool)
| PyInt (z : Z)
| PyFloat (f : float)
| PyStr (s : string)
| PyList (items : list PyValue)
| PyDict (entries : list (string * PyValue)).

(** [type(v).__name__] *)
Definition type_name (v : PyValue) : string :=
  match v with
  | PyNone => "NoneType"
  | PyBool _ => "bool"
  | PyInt _ => "int"
  | PyFloat _ => "float"
  | PyStr _ => "str"
  | PyList _ => "list"
  | PyDict _ => "dict"
  end.

(** [bool(v)] *)
Definition truthy (v : PyValue) : bool :=
  match v with
  | PyNone => false
  | PyBool b => b
  | PyInt z => negb (z =? 0)%Z
  | PyFloat f => negb (PrimFloat.eqb f 0%float)
  | PyStr s => negb (String.eqb s "")
  | PyList items => match items with [] => false | _ => true end
  | PyDict entries => match entries with [] => false | _ => true end
  end.

(** An instance of a subclass of [Exception]: its class name and [str(e)]. *)
Record Exception : Type := Raised { exc_class : string; exc_str : string }.

Inductive Result (A : Type) : Type :=
| Ok (a : A)
| Raise (e : Exception).
Arguments Ok {A} a.
Arguments Raise {A} e.

Definition AttributeError (v : PyValue) (attr : string) : Exception :=
  Raised "AttributeError"
    ("'" +:+ type_name v +:+ "' object has no attribute '" +:+ attr +:+ "'").

(** [d.get(key, default)] on the entries of a [dict]. *)
Fixpoint dict_get (entries : list (string * PyValue)) (key : string)
    (default : PyValue) : PyValue :=
  match entries with
  | [] => default
  | (k, v) :: rest => if String.eqb k key then v else dict_get rest key default
  end.

(** [v.get(key, default)] on any value: only a [dict] has [get]. *)
Definition py_get (v : PyValue) (key : string) (default : PyValue) : Result PyValue :=
  match v with
  | PyDict entries => Ok (dict_get entries key default)
  | _ => Raise (AttributeError v "get")
  end.

(** [v.lower()] on any value: only a [str] has [lower]. *)
Definition py_lower (v : PyValue) : Result string :=
  match v with
  | PyStr s => Ok (lower s)
  | _ => Raise (AttributeError v "lower")
  end.

(** ** Documents and search hits *)

Record DocumentResponse : Type := {
  content : PyValue;
  confidence : float;
  metadata : PyValue;
  is_doctor_info : bool
}.

(** A hit of the index ([ScoredPoint]): a score and an optional payload. *)
Record ScoredPoint : Type := {
  score : float;
  payload : option (list (string * PyValue))
}.

(** [result.payload.get(key, default)] *)
Definition payload_get (result : ScoredPoint) (key : string) (default : PyValue)
    : Result PyValue :=
  match payload result with
  | Some entries => Ok (dict_get entries key default)
  | None => Raise (AttributeError PyNone "get")
  end.

(** The element expression of the comprehension in [VectorDBService.search]:
    the four keyword arguments are evaluated in order, the first that raises
    ends the construction. *)
Definition to_document (result : ScoredPoint) : Result DocumentResponse :=
  match payload_get result "text" (PyStr "") with
  | Raise e => Raise e
  | Ok text =>
    let conf := score result in
    match payload_get result "metadata" (PyDict []) with
    | Raise e => Raise e
    | Ok meta =>
      match payload_get result "metadata" (PyDict []) with
      | Raise e => Raise e
      | Ok meta' =>
        match py_get meta' "type" (PyStr "") with
        | Raise e => Raise e
        | Ok ty =>
          match py_lower ty with
          | Raise e => Raise e
          | Ok low =>
            Ok {| content := text; confidence := conf; metadata := meta;
                  is_doctor_info := contains "doctor" low |}
          end
        end
      end
    end
  end.

(** The comprehension itself: documents in hit order, or the first exception. *)
Fixpoint to_documents (results : list ScoredPoint) : Result (list DocumentResponse) :=
  match results with
  | [] => Ok []
  | r :: rest =>
    match to_document r with
    | Raise e => Raise e
    | Ok d =>
      match to_documents rest with
      | Raise e => Raise e
      | Ok ds => Ok (d :: ds)
      end
    end
  end.

(** [sep.join(values)]: every item has to be a [str]; the first that is not
    raises [TypeError]. *)
Fixpoint strs_from (i : nat) (values : list PyValue) : Result (list string) :=
  match values with
  | [] => Ok []
  | PyStr s :: rest =>
    match strs_from (S i) rest with
    | Ok l => Ok (s :: l)
    | Raise e => Raise e
    end
  | v :: _ =>
    Raise (Raised "TypeError"
             ("sequence item " +:+ decimal i +:+ ": expected str instance, "
              +:+ type_name v +:+ " found"))
  end.

Definition py_join (sep : string) (values : list PyValue) : Result string :=
  match strs_from 0 values with
  | Ok l => Ok (join sep l)
  | Raise e => Raise e
  end.

(** ** Outward calls *)

Definition Vector : Type := list float.

(** Where [QdrantClient(...)] connects to. *)
Inductive Location : Type :=
| InMemory
| Remote (url api_key : PyValue).

(** The calls the program makes on its collaborators and on Streamlit, in the
    order it makes them. *)
Inductive Event : Type :=
| NewQdrantClient (location : Location)
| NewSentenceTransformer (name : string)
| Encode (query : string)
| IndexSearch (collection : string) (query_vector : Vector) (limit : Z)
| AgentRun (prompt : string)
| StError (msg : string)
| StWarning (msg : string).

Section Pipeline.

(** The state of everything outside the program: the index, the embedding
    model, the generation service. *)
Context {W : Type}.

(** The collaborators are objects whose methods act on the outside state and
    return or raise. *)
Record QdrantClient : Type := {
  search_points : string -> Vector -> Z -> W -> Result (list ScoredPoint) * W
}.

Record SentenceTransformer : Type := {
  encode : string -> W -> Result Vector * W
}.

(** [run(prompt).content] of the generation agent. *)
Record Agent : Type := {
  run : string -> W -> Result string * W
}.

(** The constructors the module imports. *)
Record Libraries : Type := {
  QdrantClient_new : Location -> W -> Result QdrantClient * W;
  SentenceTransformer_new : string -> W -> Result SentenceTransformer * W
}.

(** The attributes of a [VectorDBService]: [client] and [model] hold an object
    or [None]; [collection_name] is unset ([None] here) until [__init__]
    assigns it. *)
Record VectorDBService : Type := {
  client : option QdrantClient;
  model : option SentenceTransformer;
  collection_name : option string
}.

(** The program's state: the gateway ([self.vector_db]), the generation agent
    ([self.model] of [AyurvedaExpertSystem]), the outside, and the calls made. *)
Record Runtime : Type := {
  vector_db : VectorDBService;
  agent : Agent;
  outside : W;
  events : list Event
}.

Definition M (A : Type) : Type := Runtime -> Result A * Runtime.

Definition ret {A} (a : A) : M A := fun rt => (Ok a, rt).

Definition raise {A} (e : Exception) : M A := fun rt => (Raise e, rt).

Definition bind {A B} (c : M A) (k : A -> M B) : M B :=
  fun rt =>
    match c rt with
    | (Ok a, rt') => k a rt'
    | (Raise e, rt') => (Raise e, rt')
    end.

(** [try: body / except Exception as e: handler] *)
Definition try_except {A} (body : M A) (handler : Exception -> M A) : M A :=
  fun rt =>
    match body rt with
    | (Ok a, rt') => (Ok a, rt')
    | (Raise e, rt') => handler e rt'
    end.

Definition lift {A} (r : Result A) : M A := fun rt => (r, rt).

Definition get_vector_db : M VectorDBService := fun rt => (Ok (vector_db rt), rt).

Definition get_agent : M Agent := fun rt => (Ok (agent rt), rt).

Definition set_vector_db (v : VectorDBService) : M unit :=
  fun rt => (Ok tt, {| vector_db := v; agent := agent rt;
                       outside := outside rt; events := events rt |}).

Definition record (ev : Event) (rt : Runtime) (w : W) : Runtime :=
  {| vector_db := vector_db rt; agent := agent rt;
     outside := w; events := events rt ++ [ev] |}.

(** A call on a collaborator: recorded, then run on the outside state. *)
Definition call {A} (ev : Event) (f : W -> Result A * W) : M A :=
  fun rt => let '(r, w) := f (outside rt) in (r, record ev rt w).

Definition st_error (msg : string) : M unit :=
  fun rt => (Ok tt, record (StError msg) rt (outside rt)).

Definition st_warning (msg : string) : M unit :=
  fun rt => (Ok tt, record (StWarning msg) rt (outside rt)).

Notation "x <- c ;; k" := (bind c (fun x => k))
  (at level 100, c at next level, right associativity).
Notation "c ;;; k" := (bind c (fun _ => k))
  (at level 100, right associativity).

(** ** VectorDBService *)

Definition support_lines : string :=
  nl +:+ "            Please contact our support team for assistance:"
  +:+ nl +:+ "            Email: " +:+ SUPPORT_EMAIL
  +:+ nl +:+ "            Phone: " +:+ SUPPORT_PHONE.

Definition init_error_msg (e : Exception) : string :=
  "Vector DB Initialization Error: " +:+ exc_str e +:+ support_lines.

Definition search_error_msg (e : Exception) : string :=
  "Search Error: " +:+ exc_str e +:+ support_lines.

Definition set_client (c : option QdrantClient) : M unit :=
  self <- get_vector_db ;;
  set_vector_db {| client := c; model := model self;
                   collection_name := collection_name self |}.

Definition set_model (m : option SentenceTransformer) : M unit :=
  self <- get_vector_db ;;
  set_vector_db {| client := client self; model := m;
                   collection_name := collection_name self |}.

Definition set_collection_name (name : string) : M unit :=
  self <- get_vector_db ;;
  set_vector_db {| client := client self; model := model self;
                   collection_name := Some name |}.

(** [VectorDBService.__init__(self, api_url, api_key)] *)
Definition VectorDBService_init (lib : Libraries) (api_url api_key : PyValue) : M unit :=
  try_except
    (c <- (if truthy api_url && truthy api_key
           then call (NewQdrantClient (Remote api_url api_key))
                     (QdrantClient_new lib (Remote api_url api_key))
           else call (NewQdrantClient InMemory) (QdrantClient_new lib InMemory)) ;;
     set_client (Some c) ;;;
     m <- call (NewSentenceTransformer "all-MiniLM-L6-v2")
               (SentenceTransformer_new lib "all-MiniLM-L6-v2") ;;
     set_model (Some m) ;;;
     set_collection_name "myayurhealth_docs")
    (fun e =>
       st_error (init_error_msg e) ;;;
       set_client None ;;;
       set_model None).

(** [self.model.encode(query).tolist()] *)
Definition model_encode (query : string) : M Vector :=
  self <- get_vector_db ;;
  match model self with
  | Some m => call (Encode query) (encode m query)
  | None => raise (AttributeError PyNone "encode")
  end.

(** [self.client.search(collection_name=self.collection_name,
    query_vector=query_vector, limit=limit)] *)
Definition client_search (query_vector : Vector) (limit : Z) : M (list ScoredPoint) :=
  self <- get_vector_db ;;
  match client self with
  | None => raise (AttributeError PyNone "search")
  | Some c =>
    match collection_name self with
    | None =>
      raise (Raised "AttributeError"
               "'VectorDBService' object has no attribute 'collection_name'")
    | Some coll =>
      call (IndexSearch coll query_vector limit)
           (search_points c coll query_vector limit)
    end
  end.

(** [VectorDBService.search(self, query, limit)].  [not self.client] holds
    exactly when the attribute is [None]: a client or model object is truthy. *)
Definition search (query : string) (limit : Z) : M (list DocumentResponse) :=
  self <- get_vector_db ;;
  if negb (bool_decide (is_Some (client self)))
     || negb (bool_decide (is_Some (model self)))
  then ret []
  else
    try_except
      (query_vector <- model_encode query ;;
       results <- client_search query_vector limit ;;
       lift (to_documents results))
      (fun e => st_error (search_error_msg e) ;;; ret []).

(** The default of [limit]. *)
Definition default_limit : Z := 5.

(** ** AyurvedaExpertSystem *)

(** [self.model.run(prompt).content] *)
Definition agent_run (prompt : string) : M string :=
  a <- get_agent ;;
  call (AgentRun prompt) (run a prompt).

Definition no_doctors_text : string :=
  "I apologize, but I couldn't find any doctors matching your query in our platform. "
  +:+ "Please try a different search or contact our support team for assistance:" +:+ nl
  +:+ "Email: " +:+ SUPPORT_EMAIL +:+ nl +:+ "Phone: " +:+ SUPPORT_PHONE.

Definition doctor_prompt (context : string) : string :=
  nl +:+ "        Based on the following doctor information from our platform, provide a clear response:"
  +:+ nl +:+ "        " +:+ context
  +:+ nl +:+ "        "
  +:+ nl +:+ "        Format the response to clearly list each available doctor with their specializations and qualifications."
  +:+ nl +:+ "        "
  +:+ nl +:+ "        End the response with:"
  +:+ nl +:+ "        For appointments and inquiries, please contact our support team:"
  +:+ nl +:+ "        Email: " +:+ SUPPORT_EMAIL
  +:+ nl +:+ "        Phone: " +:+ SUPPORT_PHONE
  +:+ nl +:+ "        ".

Definition health_general_prompt (query : string) : string :=
  nl +:+ "            Provide information about how Ayurveda approaches treating " +:+ query +:+ ". "
  +:+ nl +:+ "            Include:"
  +:+ nl +:+ "            1. The Ayurvedic perspective on this condition"
  +:+ nl +:+ "            2. General treatment principles"
  +:+ nl +:+ "            3. Note that this is general information and specific treatment should be discussed with an Ayurvedic practitioner"
  +:+ nl +:+ "            "
  +:+ nl +:+ "            End with:"
  +:+ nl +:+ "            For personalized consultation and treatment, please contact our support team:"
  +:+ nl +:+ "            Email: " +:+ SUPPORT_EMAIL
  +:+ nl +:+ "            Phone: " +:+ SUPPORT_PHONE
  +:+ nl +:+ "            ".

Definition health_prompt (query context : string) : string :=
  nl +:+ "        Based on the following information from our platform, provide a comprehensive response about " +:+ query +:+ ":"
  +:+ nl +:+ "        " +:+ context
  +:+ nl +:+ "        "
  +:+ nl +:+ "        Include:"
  +:+ nl +:+ "        1. The Ayurvedic approach to treating this condition"
  +:+ nl +:+ "        2. Specific treatments or therapies mentioned in our documentation"
  +:+ nl +:+ "        3. Available doctors who specialize in treating this condition"
  +:+ nl +:+ "        "
  +:+ nl +:+ "        Only mention doctors explicitly listed in the provided information."
  +:+ nl +:+ "        "
  +:+ nl +:+ "        End with:"
  +:+ nl +:+ "        For appointments and detailed treatment plans, please contact our support team:"
  +:+ nl +:+ "        Email: " +:+ SUPPORT_EMAIL
  +:+ nl +:+ "        Phone: " +:+ SUPPORT_PHONE
  +:+ nl +:+ "        ".

Definition general_knowledge_prompt (query : string) : string :=
  nl +:+ "            Provide accurate general information about " +:+ query +:+ " from an Ayurvedic perspective."
  +:+ nl +:+ "            Note that this is general knowledge and specific health advice should be sought from qualified practitioners."
  +:+ nl +:+ "            "
  +:+ nl +:+ "            For personalized consultation and advice, please contact our support team:"
  +:+ nl +:+ "            Email: " +:+ SUPPORT_EMAIL
  +:+ nl +:+ "            Phone: " +:+ SUPPORT_PHONE
  +:+ nl +:+ "            ".

Definition general_prompt (query context : string) : string :=
  nl +:+ "        Based on the following information from our documentation, provide a response about " +:+ query +:+ ":"
  +:+ nl +:+ "        " +:+ context
  +:+ nl +:+ "        "
  +:+ nl +:+ "        Ensure the response is accurate and based only on the provided information."
  +:+ nl +:+ "        "
  +:+ nl +:+ "        End with:"
  +:+ nl +:+ "        For more information and personalized guidance, please contact our support team:"
  +:+ nl +:+ "        Email: " +:+ SUPPORT_EMAIL
  +:+ nl +:+ "        Phone: " +:+ SUPPORT_PHONE
  +:+ nl +:+ "        ".

(** ["\n".join([doc.content for doc in docs])] *)
Definition context_of (docs : list DocumentResponse) : M string :=
  lift (py_join nl (map content docs)).

(** [AyurvedaExpertSystem.process_doctor_query(self, query)] *)
Definition process_doctor_query (query : string) : M (string * list DocumentResponse) :=
  docs <- search query default_limit ;;
  let doctor_docs := filter (fun doc => is_doctor_info doc = true) docs in
  match doctor_docs with
  | [] => ret (no_doctors_text, [])
  | _ =>
    context <- context_of doctor_docs ;;
    response <- agent_run (doctor_prompt context) ;;
    ret (response, doctor_docs)
  end.

(** [AyurvedaExpertSystem.process_health_query(self, query)] *)
Definition process_health_query (query : string) : M (string * list DocumentResponse) :=
  condition_docs <- search query default_limit ;;
  doctor_docs <- search ("doctor treating " +:+ query) default_limit ;;
  let doctor_docs := filter (fun doc => is_doctor_info doc = true) doctor_docs in
  let all_docs := (condition_docs ++ doctor_docs)%list in
  match all_docs with
  | [] =>
    response <- agent_run (health_general_prompt query) ;;
    ret (response, [])
  | _ =>
    context <- context_of all_docs ;;
    response <- agent_run (health_prompt query context) ;;
    ret (response, all_docs)
  end.

Definition doctor_keywords : list string :=
  ["doctor"; "practitioner"; "physician"; "vaidya"].

Definition health_keywords : list string :=
  ["treat"; "cure"; "healing"; "medicine"; "therapy"; "disease"; "condition";
   "problem"; "pain"].

(** [any(keyword in query.lower() for keyword in keywords)] *)
Definition any_keyword (keywords : list string) (query : string) : bool :=
  existsb (fun keyword => contains keyword (lower query)) keywords.

(** [AyurvedaExpertSystem.process_query(self, query)] *)
Definition process_query (query : string) : M (string * list DocumentResponse) :=
  if any_keyword doctor_keywords query then process_doctor_query query
  else if any_keyword health_keywords query then process_health_query query
  else
    docs <- search query default_limit ;;
    match docs with
    | [] =>
      response <- agent_run (general_knowledge_prompt query) ;;
      ret (response, [])
    | _ =>
      context <- context_of docs ;;
      response <- agent_run (general_prompt query context) ;;
      ret (response, docs)
    end.

(** The routing decision of [process_query] under the names the
    specification gives its three outcomes. *)
Inductive Intent : Type := PractitionerLookup | ConditionTreatment | General.

Definition classify (query : string) : Intent :=
  if any_keyword doctor_keywords query then PractitionerLookup
  else if any_keyword health_keywords query then ConditionTreatment
  else General.

(** ** load_config *)

(** What the process sees of its surroundings when it loads the
    configuration: the outcome of opening and parsing [secrets.toml], and
    [os.getenv]. *)
Record OperatingSystem : Type := {
  load_secrets_toml : Result (gmap string PyValue);
  getenv : string -> option string
}.

Definition FileNotFoundError : Exception :=
  Raised "FileNotFoundError" "[Errno 2] No such file or directory: 'secrets.toml'".

Definition default_config : gmap string PyValue :=
  <["QDRANT_URL" := PyStr "http://localhost:6333"]>
    (<["QDRANT_API_KEY" := PyStr ""]> ∅).

Definition secrets_missing_msg : string :=
  "secrets.toml not found. Using default or environment variables."
  +:+ nl +:+ "        If you continue to experience issues, please contact our support team:"
  +:+ nl +:+ "        Email: " +:+ SUPPORT_EMAIL
  +:+ nl +:+ "        Phone: " +:+ SUPPORT_PHONE.

(** The loop [for key in config: ...]: a key whose environment variable is set
    and not empty takes that value. *)
Definition apply_env (os : OperatingSystem) (config : gmap string PyValue)
    : gmap string PyValue :=
  map_imap (fun key value =>
              match getenv os key with
              | Some env_value =>
                if negb (String.eqb env_value "") then Some (PyStr env_value)
                else Some value
              | None => Some value
              end) config.

(** [load_config()] *)
Definition load_config (os : OperatingSystem) : M (gmap string PyValue) :=
  let config := default_config in
  config <-
    match load_secrets_toml os with
    | Ok toml_config => ret (toml_config ∪ config)
    | Raise e =>
      if String.eqb (exc_class e) "FileNotFoundError"
      then st_warning secrets_missing_msg ;;; ret config
      else raise e
    end ;;
  ret (apply_env os config).

End Pipeline.

Arguments QdrantClient : clear implicits.
Arguments SentenceTransformer : clear implicits.
Arguments Agent : clear implicits.
Arguments Libraries : clear implicits.
Arguments VectorDBService : clear implicits.
Arguments Runtime : clear implicits.
Arguments M : clear implicits.

(** ** Start-up and front end *)

Section Application.
Context {W : Type}.

Notation "x <- c ;; k" := (bind c (fun x => k))
  (at level 100, c at next level, right associativity).
Notation "c ;;; k" := (bind c (fun _ => k))
  (at level 100, right associativity).

Definition set_agent (a : Agent W) : M W unit :=
  fun rt => (Ok tt, {| vector_db := vector_db rt; agent := a;
                       outside := outside rt; events := events rt |}).

(** [config.get(key)]: [None] when the key is missing. *)
Definition config_get (config : gmap string PyValue) (key : string) : PyValue :=
  default PyNone (config !! key).

(** [AyurvedaExpertSystem.__init__(self, config)].  [Agent(model=Groq(...), ...)]
    builds an object and calls nothing outside: [new_agent] is the agent it
    yields, or the exception it raises. *)
Definition AyurvedaExpertSystem_init (lib : Libraries W) (new_agent : Result (Agent W))
    (config : gmap string PyValue) : M W unit :=
  VectorDBService_init lib (config_get config "QDRANT_URL")
                           (config_get config "QDRANT_API_KEY") ;;;
  a <- lift new_agent ;;
  set_agent a.

(** The elements [main] itself puts on the page, in order.  Warnings and
    errors are recorded among the runtime's events, as everywhere. *)
Inductive Widget : Type :=
| SetPageConfig (page_title layout : string)
| Title (body : string)
| TextInput (label : string)
| Button (label : string)
| Spinner (text : string)
| Markdown (body : string)
| Write (value : PyValue)
| Expander (label : string)
| Json (value : PyValue).

(** What the visitor did on the page this run: the text in the input box and
    whether Submit was pressed. *)
Record Visitor : Type := { typed : string; submitted : bool }.

(** The script runs over the runtime and the page built so far. *)
Definition Page (A : Type) : Type :=
  Runtime W * list Widget -> Result A * (Runtime W * list Widget).

Definition page_ret {A} (a : A) : Page A := fun s => (Ok a, s).

Definition page_bind {A B} (c : Page A) (k : A -> Page B) : Page B :=
  fun s =>
    match c s with
    | (Ok a, s') => k a s'
    | (Raise e, s') => (Raise e, s')
    end.

(** A computation of the pipeline, run from the script. *)
Definition in_page {A} (c : M W A) : Page A :=
  fun s => let '(r, rt') := c (fst s) in (r, (rt', snd s)).

(** A Streamlit element call. *)
Definition render (w : Widget) : Page unit :=
  fun s => (Ok tt, (fst s, (snd s ++ [w])%list)).

Notation "x <~ c ;; k" := (page_bind c (fun x => k))
  (at level 100, c at next level, right associativity).
Notation "c ~~ k" := (page_bind c (fun _ => k))
  (at level 100, right associativity).

(** [f"{x:.2f}"] on a float is left to Python. *)
Context (format_2f : float -> string).

Definition source_label (idx : nat) (doc : DocumentResponse) : string :=
  "Source " +:+ decimal idx +:+ " (Confidence: " +:+ format_2f (confidence doc) +:+ ")".

(** The body of the loop over [enumerate(docs, 1)]. *)
Definition show_document (idx : nat) (doc : DocumentResponse) : Page unit :=
  render (Expander (source_label idx doc)) ~~
  render (Write (content doc)) ~~
  if truthy (metadata doc)
  then render (Markdown "**Metadata:**") ~~ render (Json (metadata doc))
  else page_ret tt.

Fixpoint show_documents (idx : nat) (docs : list DocumentResponse) : Page unit :=
  match docs with
  | [] => page_ret tt
  | doc :: rest => show_document idx doc ~~ show_documents (S idx) rest
  end.

Definition need_help_text : string :=
  nl +:+ "    ### Need Help?"
  +:+ nl +:+ "    Contact our support team:"
  +:+ nl +:+ "    - Email: " +:+ SUPPORT_EMAIL
  +:+ nl +:+ "    - Phone: " +:+ SUPPORT_PHONE
  +:+ nl +:+ "    ".

(** The contact information footer at the end of [main]. *)
Definition contact_footer : Page unit :=
  render (Markdown "---") ~~ render (Markdown need_help_text).

(** [main()].  The [return] after the empty-query warning leaves the function:
    the footer below the [if] is reached on the other paths only. *)
Definition main (os : OperatingSystem) (lib : Libraries W) (new_agent : Result (Agent W))
    (visitor : Visitor) : Page unit :=
  render (SetPageConfig "Ayurveda Expert System" "wide") ~~
  render (Title "Ayurveda Expert System") ~~
  config <~ in_page (load_config os) ;;
  in_page (AyurvedaExpertSystem_init lib new_agent config) ~~
  render (TextInput "What would you like to know about Ayurvedic healthcare?") ~~
  let query := typed visitor in
  render (Button "Submit") ~~
  if submitted visitor then
    if String.eqb query ""
    then in_page (st_warning "Please enter a query.")
    else
      render (Spinner "Processing your query...") ~~
      answer <~ in_page (process_query query) ;;
      let '(response, docs) := answer in
      render (Markdown "### Response") ~~
      render (Write (PyStr response)) ~~
      match docs with
      | [] => page_ret tt
      | _ => render (Markdown "### Supporting Information") ~~ show_documents 1 docs
      end ~~
      contact_footer
  else contact_footer.

End Application.

Arguments Page : clear implicits.

(** ** Vocabulary of the properties *)

(** [keyword] occurs in [query] in some letter case: a piece of the query
    lower-cases to it. *)
Definition occurs_any_case (keyword query : string) : Prop :=
  exists pre mid post, query = pre +:+ mid +:+ post /\ lower mid = keyword.

(** The contact block as the fixed answer of [process_doctor_query] spells it. *)
Definition contact_block : string :=
  "Email: " +:+ SUPPORT_EMAIL +:+ nl +:+ "Phone: " +:+ SUPPORT_PHONE.

(** A prompt names the support email and phone on lines of their own. *)
Definition names_contact (prompt : string) : bool :=
  contains ("Email: " +:+ SUPPORT_EMAIL +:+ nl) prompt
  && contains ("Phone: " +:+ SUPPORT_PHONE +:+ nl) prompt.

(** [0 <= f <= 1] on floats. *)
Definition in_unit_interval (f : float) : bool :=
  PrimFloat.leb 0%float f && PrimFloat.leb f 1%float.

Definition doctor_only (docs : list DocumentResponse) : list DocumentResponse :=
  filter (fun doc => is_doctor_info doc = true) docs.

(** An index search recorded with the given limit; any other call passes. *)
Definition searches_with (limit : Z) (ev : Event) : Prop :=
  match ev with
  | IndexSearch _ _ l => l = limit
  | _ => True
  end.

(** The prompts handed to the generation agent, in call order. *)
Definition agent_calls (evs : list Event) : list string :=
  omap (fun ev => match ev with AgentRun prompt => Some prompt | _ => None end) evs.

(** The calls [VectorDBService.search] may make. *)
Definition search_call (ev : Event) : bool :=
  match ev with
  | Encode _ | IndexSearch _ _ _ | StError _ => true
  | _ => false
  end.

(** The loop body of [load_config] on one key: what [os.getenv] overrides. *)
Definition env_or (os : OperatingSystem) (key : string) (value : PyValue) : PyValue :=
  match getenv os key with
  | Some env_value => if String.eqb env_value "" then value else PyStr env_value
  | None => value
  end.

Section Contracts.
Context {W : Type}.

(** The index returns at most [limit] hits. *)
Definition honours_limit (c : QdrantClient W) : Prop :=
  forall coll v l w hits w',
    search_points c coll v l w = (Ok hits, w') -> length hits <= Z.to_nat l.

Definition with_agent (a : Agent W) (rt : Runtime W) : Runtime W :=
  {| vector_db := vector_db rt; agent := a;
     outside := outside rt; events := events rt |}.

(** One search after another, as a caller of the gateway issues them. *)
Fixpoint search_each (calls : list (string * Z)) : M W (list (list DocumentResponse)) :=
  match calls with
  | [] => ret []
  | (query, limit) :: rest =>
    bind (search query limit) (fun docs =>
      bind (search_each rest) (fun more => ret (docs :: more)))
  end.

(** The text is what the agent of [rt] returned for [prompt] on the outside
    state [w], and that call is the last one recorded in [rt']. *)
Definition generated (rt rt' : Runtime W) (w : W) (prompt text : string) : Prop :=
  last (events rt') = Some (AgentRun prompt)
  /\ run (agent rt) prompt w = (Ok text, outside rt').

(** A computation only adds calls that satisfy [P] to the record. *)
Definition appends_only (P : Event -> Prop) {A} (c : M W A) : Prop :=
  forall rt, exists evs,
    events (snd (c rt)) = (events rt ++ evs)%list /\ Forall P evs.

End Contracts.

(** Some keyword of the list occurs in the query in some letter case. *)
Definition mentions (keywords : list string) (query : string) : Prop :=
  exists keyword, In keyword keywords /\ occurs_any_case keyword query.

(** The prompt of the branch that has documents, and of the branch that has
    none, for each intent. *)
Definition context_prompt (intent : Intent) (query context : string) : string :=
  match intent with
  | PractitionerLookup => doctor_prompt context
  | ConditionTreatment => health_prompt query context
  | General => general_prompt query context
  end.

Definition fallback_prompt (intent : Intent) (query : string) : option string :=
  match intent with
  | PractitionerLookup => None
  | ConditionTreatment => Some (health_general_prompt query)
  | General => Some (general_knowledge_prompt query)
  end.

(** The location [VectorDBService.__init__] hands to [QdrantClient]. *)
Definition connect_location (api_url api_key : PyValue) : Location :=
  if truthy api_url && truthy api_key then Remote api_url api_key else InMemory.

Definition is_connect (ev : Event) : bool :=
  match ev with NewQdrantClient _ => true | _ => false end.

(** A call on the encoder, the index or the generation agent. *)
Definition is_pipeline_call (ev : Event) : bool :=
  match ev with
  | Encode _ | IndexSearch _ _ _ | AgentRun _ => true
  | _ => false
  end.

Definition is_Markdown (w : Widget) : bool :=
  match w with Markdown _ => true | _ => false end.

(** The first widgets of every run of [main]. *)
Definition page_head : list Widget :=
  [SetPageConfig "Ayurveda Expert System" "wide";
   Title "Ayurveda Expert System";
   TextInput "What would you like to know about Ayurvedic healthcare?";
   Button "Submit"].

Definition page_foot : list Widget := [Markdown "---"; Markdown need_help_text].

Section ApplicationContracts.
Context {W : Type}.

(** The two start-up steps of [main]: load the configuration, build the
    expert system from it. *)
Definition startup (os : OperatingSystem) (lib : Libraries W)
    (new_agent : Result (Agent W)) : M W unit :=
  bind (load_config os) (AyurvedaExpertSystem_init lib new_agent).

(** [process_query query], started in [rt], answers from the documents [docs]
    its searches retrieved, having left the runtime [rt1]: the fixed text
    when the route has no no-context prompt (the practitioner route) and
    there are no documents; else, as soon as the agent returns a text on the
    prompt of the route, that text, with these documents. *)
Definition answer_produced (query : string) (rt : Runtime W)
    (docs : list DocumentResponse) (rt1 : Runtime W) : Prop :=
  match docs, fallback_prompt (classify query) query with
  | [], None => process_query query rt = (Ok (no_doctors_text, []), rt1)
  | [], Some prompt =>
    forall text w,
      run (agent rt1) prompt (outside rt1) = (Ok text, w) ->
      process_query query rt = (Ok (text, []), record (AgentRun prompt) rt1 w)
  | _ :: _, _ =>
    forall strs text w,
      map content docs = map PyStr strs ->
      run (agent rt1) (context_prompt (classify query) query (join nl strs))
          (outside rt1) = (Ok text, w) ->
      process_query query rt
      = (Ok (text, docs),
         record (AgentRun (context_prompt (classify query) query (join nl strs))) rt1 w)
  end.

(** A computation hands at most [n] prompts to the generation agent. *)
Definition generates_at_most (n : nat) {A} (c : M W A) : Prop :=
  forall rt, exists prompts,
    agent_calls (events (snd (c rt))) = (agent_calls (events rt) ++ prompts)%list
    /\ length prompts <= n.

(** What one supporting document puts on the page. *)
Definition document_widgets (format_2f : float -> string) (idx : nat)
    (doc : DocumentResponse) : list Widget :=
  ([Expander (source_label format_2f idx doc); Write (content doc)]
   ++ if truthy (metadata doc)
      then [Markdown "**Metadata:**"; Json (metadata doc)] else [])%list.

(** What the supporting documents put on the page: nothing when there are
    none, else a heading and the documents numbered from 1. *)
Definition source_widgets (format_2f : float -> string)
    (docs : list DocumentResponse) : list Widget :=
  match docs with
  | [] => []
  | _ => Markdown "### Supporting Information"
         :: concat (imap (fun i doc => document_widgets format_2f (S i) doc) docs)
  end.

End ApplicationContracts.

Definition expander_label (w : Widget) : option string :=
  match w with Expander label => Some label | _ => None end.

(** The widgets [main] puts between the page head and the footer for an
    answer. *)
Definition answer_widgets (format_2f : float -> string) (text : string)
    (docs : list DocumentResponse) : list Widget :=
  ([Spinner "Processing your query..."; Markdown "### Response"; Write (PyStr text)]
   ++ source_widgets format_2f docs)%list.


(** ** Sample collaborators

    Concrete collaborators on which the properties below are exercised.  The
    outside state is a counter of the calls answered so far. *)

Definition hit_doctor : ScoredPoint :=
  {| score := 0.75%float;
     payload := Some [("text", PyStr "Dr. Sharma, Ayurvedic neurologist");
                      ("metadata", PyDict [("type", PyStr "Ayurvedic Doctor")])] |}.

Definition hit_herb : ScoredPoint :=
  {| score := 0.5%float;
     payload := Some [("text", PyStr "Turmeric eases inflammation");
                      ("metadata", PyDict [("type", PyStr "Herb")])] |}.

(** A hit whose metadata type is a number. *)
Definition hit_untyped : ScoredPoint :=
  {| score := 0.5%float;
     payload := Some [("text", PyStr "Ashwagandha");
                      ("metadata", PyDict [("type", PyInt 5)])] |}.

(** A hit scored by cosine similarity against an opposed vector. *)
Definition hit_opposed : ScoredPoint :=
  {| score := (-0.25)%float;
     payload := Some [("text", PyStr "Triphala");
                      ("metadata", PyDict [("type", PyStr "Herb")])] |}.

(** An index holding [hits], returning the first [limit] of them. *)
Definition index_of (hits : list ScoredPoint) : QdrantClient nat :=
  {| search_points := fun _ _ limit w => (Ok (take (Z.to_nat limit) hits), S w) |}.

(** An index whose every query fails. *)
Definition index_down : QdrantClient nat :=
  {| search_points := fun _ _ _ w =>
       (Raise (Raised "ResponseHandlingException" "Connection refused"), S w) |}.

Definition encoder : SentenceTransformer nat :=
  {| encode := fun _ w => (Ok [1%float; 0%float], S w) |}.

(** An encoder that fails on the very first outside call and works after. *)
Definition encoder_flaky : SentenceTransformer nat :=
  {| encode := fun _ w =>
       match w with
       | O => (Raise (Raised "RuntimeError" "CUDA out of memory"), S w)
       | _ => (Ok [1%float; 0%float], S w)
       end |}.

(** A generation agent that ignores its instructions. *)
Definition agent_terse : Agent nat :=
  {| run := fun _ w => (Ok "Drink warm water.", S w) |}.

(** Libraries in which the embedding model cannot be loaded. *)
Definition libraries_no_model : Libraries nat :=
  {| QdrantClient_new := fun _ w => (Ok (index_of [hit_doctor]), S w);
     SentenceTransformer_new := fun _ w =>
       (Raise (Raised "OSError" "all-MiniLM-L6-v2 is not a local folder"), S w) |}.

Definition runtime_of (c : QdrantClient nat) (m : SentenceTransformer nat) : Runtime nat :=
  {| vector_db := {| client := Some c; model := Some m;
                     collection_name := Some "myayurhealth_docs" |};
     agent := agent_terse; outside := 0; events := [] |}.

(** The runtime before [VectorDBService.__init__] has run. *)
Definition runtime_blank : Runtime nat :=
  {| vector_db := {| client := None; model := None; collection_name := None |};
     agent := agent_terse; outside := 0; events := [] |}.

(** The runtime after an initialization in which the model failed to load. *)
Definition runtime_latched : Runtime nat :=
  snd (VectorDBService_init libraries_no_model PyNone PyNone runtime_blank).

Definition doc_doctor : DocumentResponse :=
  {| content := PyStr "Dr. Sharma, Ayurvedic neurologist"; confidence := 0.75%float;
     metadata := PyDict [("type", PyStr "Ayurvedic Doctor")]; is_doctor_info := true |}.

Definition doc_herb : DocumentResponse :=
  {| content := PyStr "Turmeric eases inflammation"; confidence := 0.5%float;
     metadata := PyDict [("type", PyStr "Herb")]; is_doctor_info := false |}.

(** A library of one herb and one doctor behind a working encoder. *)
Definition runtime_library : Runtime nat :=
  runtime_of (index_of [hit_herb; hit_doctor]) encoder.

(** The same with no doctor in the index. *)
Definition runtime_herbs : Runtime nat := runtime_of (index_of [hit_herb]) encoder.

(** The same with an empty index. *)
Definition runtime_empty : Runtime nat := runtime_of (index_of []) encoder.

(** A deployment with both a [secrets.toml] and an environment variable for
    the endpoint. *)
Definition secrets_file : gmap string PyValue :=
  <["QDRANT_URL" := PyStr "https://qdrant.example.com:6333"]>
    (<["QDRANT_API_KEY" := PyStr "file-key"]> ∅).

Definition os_file_and_env : OperatingSystem :=
  {| load_secrets_toml := Ok secrets_file;
     getenv := fun key =>
       if String.eqb key "QDRANT_URL" then Some "http://10.0.0.5:6333" else None |}.

(** A deployment with neither. *)
Definition os_bare : OperatingSystem :=
  {| load_secrets_toml := Raise FileNotFoundError; getenv := fun _ => None |}.

(** A generation agent that is out of service. *)
Definition agent_down : Agent nat :=
  {| run := fun _ w => (Raise (Raised "APIConnectionError" "Connection error."), S w) |}.

(** A hit whose text is a number. *)
Definition hit_numeric_text : ScoredPoint :=
  {| score := 0.5%float;
     payload := Some [("text", PyInt 7);
                      ("metadata", PyDict [("type", PyStr "Herb")])] |}.

(** A hit with a text and nothing else. *)
Definition hit_bare : ScoredPoint :=
  {| score := 0.5%float; payload := Some [("text", PyStr "Neem")] |}.

(** Libraries in which both constructors work. *)
Definition libraries_ok : Libraries nat :=
  {| QdrantClient_new := fun _ w => (Ok (index_of [hit_herb; hit_doctor]), S w);
     SentenceTransformer_new := fun _ w => (Ok encoder, S w) |}.

(** Libraries in which no client can be built. *)
Definition libraries_no_client : Libraries nat :=
  {| QdrantClient_new := fun _ w =>
       (Raise (Raised "ValueError" "Storage folder is already accessed"), S w);
     SentenceTransformer_new := fun _ w => (Ok encoder, S w) |}.

(** A deployment with an endpoint in the environment and no credential. *)
Definition os_url_only : OperatingSystem :=
  {| load_secrets_toml := Raise FileNotFoundError;
     getenv := fun key =>
       if String.eqb key "QDRANT_URL" then Some "https://qdrant.example.com:6333"
       else None |}.

(** A deployment whose secrets.toml does not parse. *)
Definition os_broken_file : OperatingSystem :=
  {| load_secrets_toml := Raise (Raised "TomlDecodeError" "Invalid date or number");
     getenv := fun _ => None |}.

(** Two decimals for the scores of the sample hits. *)
Definition format_sample (f : float) : string :=
  if PrimFloat.eqb f 0.5%float then "0.50"
  else if PrimFloat.eqb f 0.75%float then "0.75" else "-0.25".

Definition visitor_idle : Visitor := {| typed := ""; submitted := false |}.
Definition visitor_hasty : Visitor := {| typed := ""; submitted := true |}.
Definition visitor_asking : Visitor :=
  {| typed := "how to treat insomnia"; submitted := true |}.

(** The runtime with a gateway disabled and an agent out of service. *)
Definition runtime_dark : Runtime nat :=
  {| vector_db := {| client := None; model := None; collection_name := None |};
     agent := agent_down; outside := 0; events := [] |}.

(** * Properties *)

(** ** Text *)

Lemma append_nil_l (s : string) : "" +:+ s = s.
Proof. reflexivity. Qed.

Lemma append_cons (c : ascii) (a b : string) :
  String c a +:+ b = String c (a +:+ b).
Proof. reflexivity. Qed.

Lemma append_assoc (a b c : string) : (a +:+ b) +:+ c = a +:+ b +:+ c.
Proof.
  induction a as [|x a IH]; [reflexivity|].
  rewrite !append_cons, IH. reflexivity.
Qed.

Lemma lower_app (a b : string) : lower (a +:+ b) = lower a +:+ lower b.
Proof.
  induction a as [|x a IH]; [reflexivity|].
  rewrite append_cons. simpl lower. rewrite IH, append_cons. reflexivity.
Qed.

Lemma starts_with_app (n post : string) : starts_with n (n +:+ post) = true.
Proof.
  induction n as [|x n IH]; [reflexivity|].
  rewrite append_cons. simpl. rewrite Ascii.eqb_refl. exact IH.
Qed.

Lemma starts_with_inv (n h : string) :
  starts_with n h = true -> exists post, h = n +:+ post.
Proof.
  revert h. induction n as [|x n IH]; intros h Hs.
  - exists h. reflexivity.
  - destruct h as [|y h]; [discriminate|]. simpl in Hs.
    destruct (Ascii.eqb x y) eqn:E; [|discriminate].
    apply Ascii.eqb_eq in E. subst y.
    destruct (IH _ Hs) as [post ->]. exists post. reflexivity.
Qed.

Lemma contains_app (pre n post : string) : contains n (pre +:+ n +:+ post) = true.
Proof.
  induction pre as [|x pre IH].
  - rewrite append_nil_l. destruct (n +:+ post) eqn:E; simpl;
      rewrite <- ?E, starts_with_app; reflexivity.
  - rewrite append_cons. simpl. rewrite IH. apply orb_true_r.
Qed.

Lemma contains_inv (n h : string) :
  contains n h = true -> exists pre post, h = pre +:+ n +:+ post.
Proof.
  induction h as [|y h IH]; simpl; intros Hc.
  - rewrite orb_false_r in Hc. destruct (starts_with_inv _ _ Hc) as [post E].
    exists "", post. exact E.
  - apply orb_true_iff in Hc. destruct Hc as [Hs|Hc].
    + destruct (starts_with_inv _ _ Hs) as [post E]. exists "", post. exact E.
    + destruct (IH Hc) as (pre & post & ->). exists (String y pre), post. reflexivity.
Qed.

Lemma contains_app_r (n a b : string) :
  contains n b = true -> contains n (a +:+ b) = true.
Proof.
  intros Hc. destruct (contains_inv _ _ Hc) as (pre & post & ->).
  rewrite <- append_assoc. apply contains_app.
Qed.

Lemma ends_with_app (pre suffix : string) : ends_with suffix (pre +:+ suffix) = true.
Proof.
  induction pre as [|x pre IH].
  - rewrite append_nil_l. destruct suffix; simpl; rewrite ?Ascii.eqb_refl, ?String.eqb_refl; reflexivity.
  - rewrite append_cons. simpl. rewrite IH. apply orb_true_r.
Qed.

Lemma any_keyword_intro (keywords : list string) (keyword query : string) :
  In keyword keywords -> occurs_any_case keyword query ->
  any_keyword keywords query = true.
Proof.
  intros Hin (pre & mid & post & -> & Hmid).
  unfold any_keyword. apply existsb_exists. exists keyword. split; [exact Hin|].
  rewrite !lower_app, Hmid. apply contains_app.
Qed.

Section Routing.
Context {W : Type}.

(** [process_query] dispatches on [classify]. *)
Lemma process_query_routes (query : string) :
  match classify query with
  | PractitionerLookup => @process_query W query = process_doctor_query query
  | ConditionTreatment => @process_query W query = process_health_query query
  | General => True
  end.
Proof.
  unfold classify, process_query.
  destruct (any_keyword doctor_keywords query); [reflexivity|].
  destruct (any_keyword health_keywords query); reflexivity.
Qed.

(** C2. A query in which doctor, practitioner, physician or vaidya occurs in
    any letter case is classified PractitionerLookup and handled by
    [process_doctor_query], whatever condition keywords it also has: the
    practitioner keywords are tested first. *)
Theorem practitioner_keywords_win (keyword query : string) :
  In keyword doctor_keywords ->
  occurs_any_case keyword query ->
  classify query = PractitionerLookup
  /\ @process_query W query = process_doctor_query query.
Proof.
  intros Hin Hocc.
  pose proof (any_keyword_intro _ _ _ Hin Hocc) as Hany.
  unfold classify, process_query. rewrite Hany. auto.
Qed.

End Routing.

(** The query "Which DOCTOR can treat back pain?" has both kinds of keyword. *)
Lemma practitioner_keywords_win_witness :
  any_keyword health_keywords "Which DOCTOR can treat back pain?" = true
  /\ classify "Which DOCTOR can treat back pain?" = PractitionerLookup
  /\ @process_query unit "Which DOCTOR can treat back pain?"
     = process_doctor_query "Which DOCTOR can treat back pain?".
Proof.
  split; [reflexivity|].
  apply (practitioner_keywords_win "doctor").
  - simpl. auto.
  - exists "Which ", "DOCTOR", " can treat back pain?". split; reflexivity.
Defined.

(** ** Building documents from hits *)

Lemma to_document_confidence (hit : ScoredPoint) (doc : DocumentResponse) :
  to_document hit = Ok doc -> confidence doc = score hit.
Proof.
  unfold to_document. intros H.
  destruct (payload_get hit "text" (PyStr "")); [|discriminate].
  destruct (payload_get hit "metadata" (PyDict [])) as [meta|]; [|discriminate].
  destruct (py_get meta "type" (PyStr "")) as [ty|]; [|discriminate].
  destruct (py_lower ty); [|discriminate].
  injection H as <-. reflexivity.
Qed.

Lemma to_documents_length (hits : list ScoredPoint) :
  forall docs, to_documents hits = Ok docs -> length docs = length hits.
Proof.
  induction hits as [|h hits IH]; simpl; intros docs H.
  - injection H as <-. reflexivity.
  - destruct (to_document h); [|discriminate].
    destruct (to_documents hits) as [ds|]; [|discriminate].
    injection H as <-. simpl. f_equal. apply IH. reflexivity.
Qed.

Lemma to_documents_raises (hits : list ScoredPoint) (hit : ScoredPoint) (e : Exception) :
  In hit hits -> to_document hit = Raise e ->
  exists e', to_documents hits = Raise e'.
Proof.
  induction hits as [|h hits IH]; simpl; intros Hin Hbad; [contradiction|].
  destruct Hin as [->|Hin].
  - rewrite Hbad. eauto.
  - destruct (to_document h); [|eauto].
    destruct (IH Hin Hbad) as [e' ->]. eauto.
Qed.

(** ** The retrieval gateway *)

Section Gateway.
Context {W : Type}.
Implicit Types (rt : Runtime W) (query : string) (limit : Z).

Ltac unfold_search :=
  unfold search, model_encode, client_search, try_except, bind,
    get_vector_db, call, lift, st_error, ret, raise, record.

Lemma search_disabled rt query limit :
  client (vector_db rt) = None \/ model (vector_db rt) = None ->
  search query limit rt = (Ok [], rt).
Proof.
  intros H. unfold_search.
  destruct (client (vector_db rt)), (model (vector_db rt)); simpl;
    destruct H; try discriminate; reflexivity.
Qed.

(** [search] always returns: a list of documents, never an exception.  It
    leaves both objects as they were and only adds calls of its own, every
    index search among them with the limit it was given. *)
Lemma search_returns rt query limit :
  exists docs rt' evs,
    search query limit rt = (Ok docs, rt')
    /\ vector_db rt' = vector_db rt /\ agent rt' = agent rt
    /\ events rt' = (events rt ++ evs)%list
    /\ forallb search_call evs = true
    /\ Forall (searches_with limit) evs.
Proof.
  unfold_search.
  destruct (client (vector_db rt)) as [c|] eqn:Ec,
           (model (vector_db rt)) as [m|] eqn:Em; simpl;
    try (exists [], rt, []; rewrite app_nil_r; repeat split; auto; fail).
  rewrite Em. destruct (encode m query (outside rt)) as [[v|e] w1]; simpl.
  - rewrite Ec. destruct (collection_name (vector_db rt)) as [coll|]; simpl.
    + destruct (search_points c coll v limit w1) as [[hits|e] w2]; simpl.
      * destruct (to_documents hits) as [docs|e]; simpl.
        -- eexists _, _, [Encode query; IndexSearch coll v limit].
           rewrite <- app_assoc. repeat split; simpl; auto.
           repeat constructor.
        -- eexists _, _, [Encode query; IndexSearch coll v limit; StError _].
           rewrite <- !app_assoc. repeat split; simpl; auto.
           repeat constructor.
      * eexists _, _, [Encode query; IndexSearch coll v limit; StError _].
        rewrite <- !app_assoc. repeat split; simpl; auto.
        repeat constructor.
    + eexists _, _, [Encode query; StError _].
      rewrite <- !app_assoc. repeat split; simpl; auto.
      repeat constructor.
  - eexists _, _, [Encode query; StError _].
    rewrite <- !app_assoc. repeat split; simpl; auto.
    repeat constructor.
Qed.

(** With an index that returns at most [limit] hits, [search] returns at most
    [limit] documents. *)
Lemma search_bounded rt query limit docs rt' :
  (forall c, client (vector_db rt) = Some c -> honours_limit c) ->
  search query limit rt = (Ok docs, rt') ->
  length docs <= Z.to_nat limit.
Proof.
  intros Hlim. unfold_search.
  destruct (client (vector_db rt)) as [c|] eqn:Ec,
           (model (vector_db rt)) as [m|] eqn:Em; simpl;
    try (intros [= <- _]; simpl; lia).
  rewrite Em. destruct (encode m query (outside rt)) as [[v|e] w1]; simpl;
    try (intros [= <- _]; simpl; lia).
  rewrite Ec. destruct (collection_name (vector_db rt)) as [coll|]; simpl;
    try (intros [= <- _]; simpl; lia).
  destruct (search_points c coll v limit w1) as [[hits|e] w2] eqn:Es; simpl;
    try (intros [= <- _]; simpl; lia).
  destruct (to_documents hits) as [ds|e] eqn:Ed; simpl;
    try (intros [= <- _]; simpl; lia).
  intros [= <- _]. rewrite (to_documents_length _ _ Ed).
  exact (Hlim c eq_refl _ _ _ _ _ _ Es).
Qed.

(** What an enabled gateway returns when both collaborators answer and every
    hit maps to a document. *)
Lemma search_succeeds rt query limit c m coll v w1 hits w2 docs :
  vector_db rt = {| client := Some c; model := Some m; collection_name := Some coll |} ->
  encode m query (outside rt) = (Ok v, w1) ->
  search_points c coll v limit w1 = (Ok hits, w2) ->
  to_documents hits = Ok docs ->
  search query limit rt
  = (Ok docs, {| vector_db := vector_db rt; agent := agent rt; outside := w2;
                 events := ((events rt ++ [Encode query])
                            ++ [IndexSearch coll v limit])%list |}).
Proof.
  intros Hv He Hs Hd. unfold_search.
  repeat first [rewrite Hv | rewrite He | rewrite Hs | rewrite Hd | progress simpl].
  reflexivity.
Qed.

End Gateway.
(** ** Claims on the retrieval gateway *)

Section GatewayClaims.
Context {W : Type}.
Implicit Types (rt : Runtime W) (query : string) (limit : Z).

(** [__init__] never raises: afterwards the gateway either holds a client, a
    model and its collection name, or both [client] and [model] are [None]
    and the failure has been reported. *)
Lemma VectorDBService_init_outcome (lib : Libraries W) (api_url api_key : PyValue) rt :
  exists rt', VectorDBService_init lib api_url api_key rt = (Ok tt, rt')
    /\ ((is_Some (client (vector_db rt')) /\ is_Some (model (vector_db rt'))
         /\ collection_name (vector_db rt') = Some "myayurhealth_docs")
        \/ (client (vector_db rt') = None /\ model (vector_db rt') = None
            /\ exists e, last (events rt') = Some (StError (init_error_msg e)))).
Proof.
  unfold VectorDBService_init, try_except, bind, call, set_client, set_model,
    set_collection_name, set_vector_db, get_vector_db, st_error, record, bind.
  destruct (truthy api_url && truthy api_key); simpl;
    match goal with |- context [QdrantClient_new lib ?loc ?w] =>
      destruct (QdrantClient_new lib loc w) as [[c|e] w1] end; simpl;
    try (eexists; split; [reflexivity|]; right; simpl; repeat split;
         exists e; apply last_snoc);
    match goal with |- context [SentenceTransformer_new lib ?n ?w] =>
      destruct (SentenceTransformer_new lib n w) as [[m|e] w2] end; simpl;
    eexists; (split; [reflexivity|]); simpl;
    try (left; repeat split; eauto; fail);
    right; repeat split; exists e; rewrite last_snoc; reflexivity.
Qed.

(** C3. On a gateway whose client or model is [None], as a failed
    initialization leaves them, [search] returns the empty list for every
    query and limit, without raising, and hands the runtime back as it was:
    no collaborator is constructed or called, nothing is reported, and the
    gateway is still disabled for the next call. *)
Theorem disabled_gateway_returns_nothing rt :
  client (vector_db rt) = None \/ model (vector_db rt) = None ->
  (forall query limit, search query limit rt = (Ok [], rt))
  /\ forall calls, search_each calls rt = (Ok (map (fun _ => []) calls), rt).
Proof.
  intros H. split; [intros query limit; apply search_disabled; exact H|].
  induction calls as [|[query limit] rest IH]; [reflexivity|].
  simpl. unfold bind at 1. rewrite (search_disabled rt query limit H).
  unfold bind at 1. rewrite IH. reflexivity.
Qed.

Lemma search_error_msg_contact (e : Exception) :
  contains SUPPORT_EMAIL (search_error_msg e) = true
  /\ contains SUPPORT_PHONE (search_error_msg e) = true.
Proof.
  unfold search_error_msg. split; do 2 apply contains_app_r; reflexivity.
Qed.

(** C7. On an enabled gateway, when encoding the query raises, or the index
    query raises, [search] catches the exception: it returns the empty list,
    reports the failure with the support contact, and leaves the gateway's
    fields alone, so that a later call whose collaborators answer returns
    their documents. *)
Theorem search_failure_is_absorbed rt query limit c m coll e :
  vector_db rt = {| client := Some c; model := Some m; collection_name := Some coll |} ->
  (exists w1, encode m query (outside rt) = (Raise e, w1))
  \/ (exists v w1 w2, encode m query (outside rt) = (Ok v, w1)
                      /\ search_points c coll v limit w1 = (Raise e, w2)) ->
  exists rt' evs,
    search query limit rt = (Ok [], rt')
    /\ vector_db rt' = vector_db rt
    /\ events rt' = (events rt ++ evs ++ [StError (search_error_msg e)])%list
    /\ contains SUPPORT_EMAIL (search_error_msg e) = true
    /\ contains SUPPORT_PHONE (search_error_msg e) = true
    /\ forall query2 limit2 v w1 hits w2 docs,
         encode m query2 (outside rt') = (Ok v, w1) ->
         search_points c coll v limit2 w1 = (Ok hits, w2) ->
         to_documents hits = Ok docs ->
         fst (search query2 limit2 rt') = Ok docs.
Proof.
  intros Hv Hfail.
  assert (Hlater : forall rt', vector_db rt' = vector_db rt ->
            forall query2 limit2 v w1 hits w2 docs,
              encode m query2 (outside rt') = (Ok v, w1) ->
              search_points c coll v limit2 w1 = (Ok hits, w2) ->
              to_documents hits = Ok docs ->
              fst (search query2 limit2 rt') = Ok docs).
  { intros rt' Hsame query2 limit2 v w1 hits w2 docs He Hs Hd.
    rewrite Hv in Hsame.
    rewrite (search_succeeds rt' query2 limit2 c m coll v w1 hits w2 docs Hsame He Hs Hd).
    reflexivity. }
  destruct (search_error_msg_contact e) as [Hmail Hphone].
  destruct Hfail as [(w1 & He) | (v & w1 & w2 & He & Hs)].
  - exists {| vector_db := vector_db rt; agent := agent rt; outside := w1;
              events := ((events rt ++ [Encode query])
                         ++ [StError (search_error_msg e)])%list |},
           [Encode query].
    split; [|split; [reflexivity|split; [|split; [exact Hmail|split; [exact Hphone|]]]]].
    + unfold search, model_encode, client_search, try_except, bind,
        get_vector_db, call, lift, st_error, ret, raise, record.
      repeat first [rewrite Hv | rewrite He | progress simpl]. reflexivity.
    + simpl. rewrite <- app_assoc. reflexivity.
    + apply Hlater. reflexivity.
  - exists {| vector_db := vector_db rt; agent := agent rt; outside := w2;
              events := (((events rt ++ [Encode query])
                          ++ [IndexSearch coll v limit])
                         ++ [StError (search_error_msg e)])%list |},
           [Encode query; IndexSearch coll v limit].
    split; [|split; [reflexivity|split; [|split; [exact Hmail|split; [exact Hphone|]]]]].
    + unfold search, model_encode, client_search, try_except, bind,
        get_vector_db, call, lift, st_error, ret, raise, record.
      repeat first [rewrite Hv | rewrite He | rewrite Hs | progress simpl].
      reflexivity.
    + simpl. rewrite <- !app_assoc. reflexivity.
    + apply Hlater. reflexivity.
Qed.

(** C10. When the index answers and one of its hits cannot be made into a
    document, the comprehension raises inside the [try]: [search] reports the
    exception and returns the empty list, without the documents of the other
    hits. *)
Theorem one_bad_hit_discards_all rt query limit c m coll v w1 hits w2 hit e :
  vector_db rt = {| client := Some c; model := Some m; collection_name := Some coll |} ->
  encode m query (outside rt) = (Ok v, w1) ->
  search_points c coll v limit w1 = (Ok hits, w2) ->
  In hit hits ->
  to_document hit = Raise e ->
  exists e' rt',
    to_documents hits = Raise e'
    /\ search query limit rt = (Ok [], rt')
    /\ last (events rt') = Some (StError (search_error_msg e')).
Proof.
  intros Hv He Hs Hin Hbad.
  destruct (to_documents_raises hits hit e Hin Hbad) as [e' Hd].
  exists e'. eexists. split; [exact Hd|].
  unfold search, model_encode, client_search, try_except, bind,
    get_vector_db, call, lift, st_error, ret, raise, record.
  repeat first [rewrite Hv | rewrite He | rewrite Hs | rewrite Hd | progress simpl].
  split; [reflexivity|]. simpl. apply last_snoc.
Qed.

End GatewayClaims.

(** After an initialization in which the model failed to load, a search for
    anything returns nothing. *)
Lemma disabled_gateway_returns_nothing_witness :
  model (vector_db runtime_latched) = None
  /\ (forall query limit, search query limit runtime_latched = (Ok [], runtime_latched))
  /\ forall calls,
       search_each calls runtime_latched
       = (Ok (map (fun _ => []) calls), runtime_latched).
Proof.
  split; [reflexivity|].
  apply (disabled_gateway_returns_nothing runtime_latched).
  right. reflexivity.
Defined.

(** The flaky encoder fails the first search and serves the second. *)
Lemma search_failure_is_absorbed_witness :
  exists rt' evs,
    search "turmeric benefits" 5 (runtime_of (index_of [hit_herb]) encoder_flaky)
    = (Ok [], rt')
    /\ vector_db rt' = vector_db (runtime_of (index_of [hit_herb]) encoder_flaky)
    /\ events rt'
       = (events (runtime_of (index_of [hit_herb]) encoder_flaky) ++ evs
          ++ [StError (search_error_msg (Raised "RuntimeError" "CUDA out of memory"))])%list
    /\ contains SUPPORT_EMAIL
         (search_error_msg (Raised "RuntimeError" "CUDA out of memory")) = true
    /\ contains SUPPORT_PHONE
         (search_error_msg (Raised "RuntimeError" "CUDA out of memory")) = true
    /\ forall query2 limit2 v w1 hits w2 docs,
         encode encoder_flaky query2 (outside rt') = (Ok v, w1) ->
         search_points (index_of [hit_herb]) "myayurhealth_docs" v limit2 w1
         = (Ok hits, w2) ->
         to_documents hits = Ok docs ->
         fst (search query2 limit2 rt') = Ok docs.
Proof.
  apply (search_failure_is_absorbed
           (runtime_of (index_of [hit_herb]) encoder_flaky)
           "turmeric benefits" 5 (index_of [hit_herb]) encoder_flaky
           "myayurhealth_docs" (Raised "RuntimeError" "CUDA out of memory")).
  - reflexivity.
  - left. exists 1. reflexivity.
Defined.

(** One hit with a numeric metadata type among two good ones. *)
Lemma one_bad_hit_discards_all_witness :
  exists e' rt',
    to_documents [hit_doctor; hit_untyped; hit_herb] = Raise e'
    /\ search "ashwagandha" 5
         (runtime_of (index_of [hit_doctor; hit_untyped; hit_herb]) encoder)
       = (Ok [], rt')
    /\ last (events rt') = Some (StError (search_error_msg e')).
Proof.
  apply (one_bad_hit_discards_all
           (runtime_of (index_of [hit_doctor; hit_untyped; hit_herb]) encoder)
           "ashwagandha" 5 (index_of [hit_doctor; hit_untyped; hit_herb]) encoder
           "myayurhealth_docs" [1%float; 0%float] 1
           [hit_doctor; hit_untyped; hit_herb] 2 hit_untyped
           (Raised "AttributeError" "'int' object has no attribute 'lower'")).
  - reflexivity.
  - reflexivity.
  - reflexivity.
  - simpl. auto.
  - reflexivity.
Defined.

(** C8 fails as stated: the gateway copies the score of the hit, whatever it
    is.  A hit the index scored -0.25 becomes a document of confidence -0.25. *)
Lemma confidence_outside_unit_interval :
  exists doc,
    search "triphala" 5 (runtime_of (index_of [hit_opposed]) encoder)
    = (Ok [doc], {| vector_db := vector_db (runtime_of (index_of [hit_opposed]) encoder);
                    agent := agent_terse; outside := 2;
                    events := [Encode "triphala";
                               IndexSearch "myayurhealth_docs" [1%float; 0%float] 5] |})
    /\ to_document hit_opposed = Ok doc
    /\ in_unit_interval (confidence doc) = false.
Proof.
  eexists. split; [reflexivity|]. split; reflexivity.
Qed.

(** C8, amended. The confidence of a document built from a hit is the score
    of that hit, unchanged; it lies in [0,1] exactly when the score the index
    returned does. *)
Theorem confidence_is_the_score (hit : ScoredPoint) (doc : DocumentResponse) :
  to_document hit = Ok doc ->
  confidence doc = score hit
  /\ in_unit_interval (confidence doc) = in_unit_interval (score hit).
Proof.
  intros H. rewrite (to_document_confidence hit doc H). split; reflexivity.
Qed.

Lemma confidence_is_the_score_witness :
  confidence {| content := PyStr "Dr. Sharma, Ayurvedic neurologist";
                confidence := 0.75%float;
                metadata := PyDict [("type", PyStr "Ayurvedic Doctor")];
                is_doctor_info := true |} = score hit_doctor
  /\ in_unit_interval
       (confidence {| content := PyStr "Dr. Sharma, Ayurvedic neurologist";
                      confidence := 0.75%float;
                      metadata := PyDict [("type", PyStr "Ayurvedic Doctor")];
                      is_doctor_info := true |})
     = in_unit_interval (score hit_doctor).
Proof.
  apply (confidence_is_the_score hit_doctor). reflexivity.
Defined.

(** ** Answer composition *)

Lemma agent_calls_app (a b : list Event) :
  agent_calls (a ++ b) = (agent_calls a ++ agent_calls b)%list.
Proof. apply omap_app. Qed.

Lemma agent_calls_search_calls (evs : list Event) :
  forallb search_call evs = true -> agent_calls evs = [].
Proof.
  induction evs as [|ev evs IH]; [reflexivity|]. simpl.
  intros H. apply andb_true_iff in H. destruct H as [H1 H2].
  unfold agent_calls in *. simpl. destruct ev; try discriminate; simpl; auto.
Qed.

Section Composition.
Context {W : Type}.
Implicit Types (rt : Runtime W) (query : string).

Ltac unfold_tail :=
  unfold context_of, agent_run, bind, get_agent, call, lift, ret, record.

(** [search] does not look at the generation agent. *)
Lemma search_with_agent (a : Agent W) rt query (limit : Z) :
  search query limit (with_agent a rt)
  = (fst (search query limit rt), with_agent a (snd (search query limit rt))).
Proof.
  unfold search, model_encode, client_search, try_except, bind,
    get_vector_db, call, lift, st_error, ret, raise, record, with_agent.
  destruct rt as [[[c|] [m|] coll] ag w evs]; simpl; try reflexivity.
  destruct (encode m query w) as [[v|e] w1]; simpl; try reflexivity.
  destruct coll as [coll|]; simpl; try reflexivity.
  destruct (search_points c coll v limit w1) as [[hits|e] w2]; simpl; try reflexivity.
  destruct (to_documents hits); reflexivity.
Qed.

(** C6. When the search of a practitioner query returns no document marked
    as doctor information, [process_doctor_query] returns the fixed
    apology-and-contact text with no supporting documents, in the runtime the
    search left: the generation agent is not called, and the answer is the
    same whichever agent the system holds. *)
Theorem no_doctor_found_is_fixed_answer rt query docs rt1 :
  search query default_limit rt = (Ok docs, rt1) ->
  doctor_only docs = [] ->
  process_doctor_query query rt = (Ok (no_doctors_text, []), rt1)
  /\ agent_calls (events rt1) = agent_calls (events rt)
  /\ forall a, fst (process_doctor_query query (with_agent a rt))
               = Ok (no_doctors_text, []).
Proof.
  intros Hs Hnone. unfold doctor_only in Hnone. split; [|split].
  - unfold process_doctor_query, bind. rewrite Hs, Hnone. reflexivity.
  - destruct (search_returns rt query default_limit)
      as (docs' & rt' & evs & Hs' & _ & _ & Hev & Hcalls & _).
    rewrite Hs in Hs'. injection Hs' as _ <-.
    rewrite Hev, agent_calls_app, (agent_calls_search_calls _ Hcalls).
    apply app_nil_r.
  - intros a. unfold process_doctor_query, bind.
    rewrite search_with_agent, Hs. simpl. rewrite Hnone. reflexivity.
Qed.

(** C4. The supporting documents of [process_health_query] are the documents
    of the condition search, as returned, followed by those documents of the
    doctor search that are marked as doctor information: whenever it returns,
    and it does return them whenever the contents join and the agent
    answers. *)
Theorem health_documents_are_concatenated rt query condition_docs rt1 doctor_docs rt2 :
  search query default_limit rt = (Ok condition_docs, rt1) ->
  search ("doctor treating " +:+ query) default_limit rt1 = (Ok doctor_docs, rt2) ->
  (forall text docs rt',
     process_health_query query rt = (Ok (text, docs), rt') ->
     docs = (condition_docs ++ doctor_only doctor_docs)%list)
  /\ (forall context text w,
        py_join nl (map content (condition_docs ++ doctor_only doctor_docs)%list)
        = Ok context ->
        run (agent rt2)
            (match (condition_docs ++ doctor_only doctor_docs)%list with
             | [] => health_general_prompt query
             | _ => health_prompt query context
             end) (outside rt2) = (Ok text, w) ->
        fst (process_health_query query rt)
        = Ok (text, (condition_docs ++ doctor_only doctor_docs)%list)).
Proof.
  intros H1 H2. unfold doctor_only. split.
  - intros text docs rt'. unfold process_health_query, bind at 1 2.
    rewrite H1, H2.
    destruct (condition_docs ++ filter _ doctor_docs)%list as [|d all] eqn:E.
    + unfold_tail. destruct (run _ _ _) as [[t|e] w]; intros [= _ <- _]; reflexivity.
    + unfold_tail. destruct (py_join _ _) as [ctx|e]; [|discriminate].
      destruct (run _ _ _) as [[t|e] w]; intros [= _ <- _]; reflexivity.
  - intros context text w Hjoin Hrun. unfold process_health_query, bind at 1 2.
    rewrite H1, H2.
    destruct (condition_docs ++ filter _ doctor_docs)%list as [|d all] eqn:E.
    + unfold_tail. rewrite Hrun. reflexivity.
    + unfold_tail. rewrite Hjoin, Hrun. reflexivity.
Qed.

(** *** Calls made by the pipeline *)

Lemma appends_ret (P : Event -> Prop) {A} (a : A) : appends_only P (@ret W A a).
Proof. intros rt. exists []. simpl. rewrite app_nil_r. auto. Qed.

Lemma appends_lift (P : Event -> Prop) {A} (r : Result A) : appends_only P (@lift W A r).
Proof. intros rt. exists []. simpl. rewrite app_nil_r. auto. Qed.

Lemma appends_get_agent (P : Event -> Prop) : appends_only P (@get_agent W).
Proof. intros rt. exists []. simpl. rewrite app_nil_r. auto. Qed.

Lemma appends_call (P : Event -> Prop) {A} (ev : Event) (f : W -> Result A * W) :
  P ev -> appends_only P (call ev f).
Proof.
  intros Hev rt. exists [ev]. unfold call.
  destruct (f (outside rt)) as [r w]. simpl. auto.
Qed.

Lemma appends_bind (P : Event -> Prop) {A B} (c : M W A) (k : A -> M W B) :
  appends_only P c -> (forall a, appends_only P (k a)) ->
  appends_only P (bind c k).
Proof.
  intros Hc Hk rt. unfold bind.
  destruct (Hc rt) as (evs1 & E1 & F1).
  destruct (c rt) as [[a|e] rt1]; simpl in *.
  - destruct (Hk a rt1) as (evs2 & E2 & F2).
    exists (evs1 ++ evs2)%list. rewrite E2, E1, app_assoc.
    split; [reflexivity|]. apply Forall_app. auto.
  - exists evs1. auto.
Qed.

Lemma appends_search query (limit : Z) :
  appends_only (searches_with limit) (@search W query limit).
Proof.
  intros rt.
  destruct (search_returns rt query limit) as (docs & rt' & evs & Hs & _ & _ & Hev & _ & Hl).
  exists evs. rewrite Hs. auto.
Qed.

Lemma appends_generation (P : Event -> Prop) (docs out : list DocumentResponse)
    (prompt_of : string -> string) :
  (forall prompt, P (AgentRun prompt)) ->
  appends_only P
    (bind (@context_of W docs) (fun context =>
       bind (agent_run (prompt_of context)) (fun response => ret (response, out)))).
Proof.
  intros HP. apply appends_bind; [apply appends_lift|]. intros context.
  apply appends_bind; [|intros; apply appends_ret].
  unfold agent_run. apply appends_bind; [apply appends_get_agent|].
  intros a. apply appends_call. apply HP.
Qed.

Lemma appends_process_query query :
  appends_only (searches_with default_limit) (@process_query W query).
Proof.
  assert (Hgen : forall prompt, appends_only (searches_with default_limit)
                   (bind (@agent_run W prompt)
                      (fun response => ret (response, @nil DocumentResponse)))).
  { intros prompt. apply appends_bind; [|intros; apply appends_ret].
    unfold agent_run. apply appends_bind; [apply appends_get_agent|].
    intros a. apply appends_call. exact I. }
  unfold process_query.
  destruct (any_keyword doctor_keywords query);
    [|destruct (any_keyword health_keywords query)].
  - unfold process_doctor_query.
    apply appends_bind; [apply appends_search|]. intros docs.
    destruct (filter _ docs); [apply appends_ret|].
    apply appends_generation. intros; exact I.
  - unfold process_health_query.
    apply appends_bind; [apply appends_search|]. intros condition_docs.
    apply appends_bind; [apply appends_search|]. intros doctor_docs.
    destruct (condition_docs ++ filter _ doctor_docs)%list; [apply Hgen|].
    apply appends_generation. intros; exact I.
  - apply appends_bind; [apply appends_search|]. intros docs.
    destruct docs; [apply Hgen|].
    apply appends_generation. intros; exact I.
Qed.

(** *** Number of supporting documents *)

Ltac finish_tail :=
  unfold_tail;
  repeat match goal with
         | |- context [py_join ?s ?l] => destruct (py_join s l); simpl
         | |- context [run ?a ?p ?w] => destruct (run a p w) as [[?|?] ?]; simpl
         end;
  try discriminate.

Lemma process_doctor_query_length rt query text docs rt' :
  (forall c, client (vector_db rt) = Some c -> honours_limit c) ->
  process_doctor_query query rt = (Ok (text, docs), rt') ->
  length docs <= 5.
Proof.
  intros Hlim.
  destruct (search_returns rt query default_limit) as (ds & rt1 & evs & Hs & _).
  pose proof (search_bounded _ _ _ _ _ Hlim Hs) as Hlen.
  pose proof (length_filter (fun doc => is_doctor_info doc = true) ds) as Hf.
  unfold process_doctor_query, bind at 1. rewrite Hs.
  destruct (filter _ ds) as [|d l]; [intros [= _ <- _]; simpl; lia|].
  finish_tail. intros [= _ <- _]. unfold default_limit in Hlen. simpl in *. lia.
Qed.

Lemma process_health_query_length rt query text docs rt' :
  (forall c, client (vector_db rt) = Some c -> honours_limit c) ->
  process_health_query query rt = (Ok (text, docs), rt') ->
  length docs <= 10.
Proof.
  intros Hlim.
  destruct (search_returns rt query default_limit)
    as (cs & rt1 & evs1 & Hs1 & Hv1 & _).
  destruct (search_returns rt1 ("doctor treating " +:+ query) default_limit)
    as (ds & rt2 & evs2 & Hs2 & _).
  pose proof (search_bounded _ _ _ _ _ Hlim Hs1) as Hlen1.
  assert (Hlim1 : forall c, client (vector_db rt1) = Some c -> honours_limit c)
    by (rewrite Hv1; exact Hlim).
  pose proof (search_bounded _ _ _ _ _ Hlim1 Hs2) as Hlen2.
  pose proof (length_filter (fun doc => is_doctor_info doc = true) ds) as Hf.
  assert (Hall : length (cs ++ filter (fun doc => is_doctor_info doc = true) ds) <= 10).
  { rewrite length_app. unfold default_limit in *. simpl in *. lia. }
  unfold process_health_query, bind at 1 2. rewrite Hs1, Hs2.
  destruct (cs ++ filter _ ds)%list as [|d l].
  - finish_tail. intros [= _ <- _]. simpl. lia.
  - finish_tail. intros [= _ <- _]. exact Hall.
Qed.

Lemma process_general_length rt query text docs rt' :
  (forall c, client (vector_db rt) = Some c -> honours_limit c) ->
  classify query = General ->
  process_query query rt = (Ok (text, docs), rt') ->
  length docs <= 5.
Proof.
  intros Hlim. unfold classify, process_query.
  destruct (any_keyword doctor_keywords query); [discriminate|].
  destruct (any_keyword health_keywords query); [discriminate|]. intros _.
  destruct (search_returns rt query default_limit) as (ds & rt1 & evs & Hs & _).
  pose proof (search_bounded _ _ _ _ _ Hlim Hs) as Hlen.
  unfold bind at 1. rewrite Hs.
  destruct ds as [|d l].
  - finish_tail. intros [= _ <- _]. simpl. lia.
  - finish_tail. intros [= _ <- _]. exact Hlen.
Qed.

(** C9. Every index search the pipeline issues for a query carries the limit
    5.  Hence, with an index that returns no more hits than the limit it is
    given, an answer has at most 5 supporting documents for a practitioner or
    general query and at most 10 for a condition/treatment query. *)
Theorem retrievals_use_default_limit rt query :
  (forall c, client (vector_db rt) = Some c -> honours_limit c) ->
  (exists evs, events (snd (process_query query rt)) = (events rt ++ evs)%list
               /\ Forall (searches_with 5) evs)
  /\ forall text docs rt',
       process_query query rt = (Ok (text, docs), rt') ->
       length docs <= match classify query with
                      | ConditionTreatment => 10
                      | _ => 5
                      end.
Proof.
  intros Hlim. split; [exact (appends_process_query query rt)|].
  intros text docs rt' Hrun.
  pose proof (process_query_routes (W := W) query) as Hroute.
  destruct (classify query) eqn:Hc.
  - rewrite Hroute in Hrun. exact (process_doctor_query_length _ _ _ _ _ Hlim Hrun).
  - rewrite Hroute in Hrun. exact (process_health_query_length _ _ _ _ _ Hlim Hrun).
  - exact (process_general_length _ _ _ _ _ Hlim Hc Hrun).
Qed.

End Composition.
(** ** The contact block *)

Ltac find_contact := repeat first [reflexivity | apply contains_app_r].

Lemma doctor_prompt_names_contact (context : string) :
  names_contact (doctor_prompt context) = true.
Proof.
  unfold names_contact, doctor_prompt. apply andb_true_intro. split; find_contact.
Qed.

Lemma health_general_prompt_names_contact (query : string) :
  names_contact (health_general_prompt query) = true.
Proof.
  unfold names_contact, health_general_prompt. apply andb_true_intro.
  split; find_contact.
Qed.

Lemma health_prompt_names_contact (query context : string) :
  names_contact (health_prompt query context) = true.
Proof.
  unfold names_contact, health_prompt. apply andb_true_intro. split; find_contact.
Qed.

Lemma general_knowledge_prompt_names_contact (query : string) :
  names_contact (general_knowledge_prompt query) = true.
Proof.
  unfold names_contact, general_knowledge_prompt. apply andb_true_intro.
  split; find_contact.
Qed.

Lemma general_prompt_names_contact (query context : string) :
  names_contact (general_prompt query context) = true.
Proof.
  unfold names_contact, general_prompt. apply andb_true_intro. split; find_contact.
Qed.

Lemma no_doctors_text_ends_with_contact :
  ends_with contact_block no_doctors_text = true.
Proof. reflexivity. Qed.

Section ContactBlock.
Context {W : Type}.
Implicit Types (rt : Runtime W) (query : string).

Lemma generated_direct rt1 prompt text (docs out : list DocumentResponse) rt' :
  bind (agent_run prompt) (fun response => ret (response, out)) rt1
  = (Ok (text, docs), rt') ->
  generated rt1 rt' (outside rt1) prompt text.
Proof.
  unfold agent_run, bind, get_agent, call, ret, record, generated.
  destruct (run (agent rt1) prompt (outside rt1)) as [[t|e] w]; [|discriminate].
  intros [= <- _ <-]. simpl. rewrite last_snoc. auto.
Qed.

Lemma generated_from_context rt1 (prompt_of : string -> string) text
    (ds docs out : list DocumentResponse) rt' :
  bind (context_of ds) (fun context =>
    bind (agent_run (prompt_of context)) (fun response => ret (response, out))) rt1
  = (Ok (text, docs), rt') ->
  exists context, generated rt1 rt' (outside rt1) (prompt_of context) text.
Proof.
  unfold context_of, lift. unfold bind at 1.
  destruct (py_join nl (map content ds)) as [context|e]; [|discriminate].
  intros H. exists context. exact (generated_direct _ _ _ _ _ _ H).
Qed.

End ContactBlock.
(** C1 fails as stated: the text of a generation-backed answer is whatever
    the agent returns.  With an agent that answers "Drink warm water.", the
    general branch, the condition/treatment branch without results and the
    practitioner branch with a doctor all return that text, which neither
    ends with the contact block nor mentions the email or the phone. *)
Lemma generated_answer_lacks_contact_block :
  fst (process_query "turmeric benefits" runtime_herbs)
  = Ok ("Drink warm water.", [doc_herb])
  /\ fst (process_query "how to treat insomnia" runtime_empty)
     = Ok ("Drink warm water.", [])
  /\ fst (process_query "doctor for migraines" runtime_library)
     = Ok ("Drink warm water.", [doc_doctor])
  /\ ends_with contact_block "Drink warm water." = false
  /\ contains SUPPORT_EMAIL "Drink warm water." = false
  /\ contains SUPPORT_PHONE "Drink warm water." = false.
Proof.
  repeat split; reflexivity.
Qed.

(** A practitioner query against an index that holds only a herb. *)
Lemma no_doctor_found_is_fixed_answer_witness :
  process_doctor_query "doctor for migraines" runtime_herbs
  = (Ok (no_doctors_text, []),
     snd (search "doctor for migraines" default_limit runtime_herbs))
  /\ agent_calls (events (snd (search "doctor for migraines" default_limit runtime_herbs)))
     = agent_calls (events runtime_herbs)
  /\ forall a, fst (process_doctor_query "doctor for migraines"
                      (with_agent a runtime_herbs))
               = Ok (no_doctors_text, []).
Proof.
  apply (no_doctor_found_is_fixed_answer runtime_herbs "doctor for migraines"
           [doc_herb]
           (snd (search "doctor for migraines" default_limit runtime_herbs))).
  - reflexivity.
  - reflexivity.
Defined.

(** Both searches return the herb and the doctor: the doctor is listed twice. *)
Lemma health_documents_are_concatenated_witness :
  (forall text docs rt',
     process_health_query "how to treat insomnia" runtime_library
     = (Ok (text, docs), rt') ->
     docs = ([doc_herb; doc_doctor] ++ doctor_only [doc_herb; doc_doctor])%list)
  /\ (forall context text w,
        py_join nl (map content
                      ([doc_herb; doc_doctor] ++ doctor_only [doc_herb; doc_doctor])%list)
        = Ok context ->
        run (agent (snd (search "doctor treating how to treat insomnia" default_limit
                           (snd (search "how to treat insomnia" default_limit
                                   runtime_library)))))
            (match ([doc_herb; doc_doctor] ++ doctor_only [doc_herb; doc_doctor])%list with
             | [] => health_general_prompt "how to treat insomnia"
             | _ => health_prompt "how to treat insomnia" context
             end)
            (outside (snd (search "doctor treating how to treat insomnia" default_limit
                             (snd (search "how to treat insomnia" default_limit
                                     runtime_library)))))
        = (Ok text, w) ->
        fst (process_health_query "how to treat insomnia" runtime_library)
        = Ok (text, ([doc_herb; doc_doctor] ++ doctor_only [doc_herb; doc_doctor])%list)).
Proof.
  apply (health_documents_are_concatenated runtime_library "how to treat insomnia"
           [doc_herb; doc_doctor]
           (snd (search "how to treat insomnia" default_limit runtime_library))
           [doc_herb; doc_doctor]
           (snd (search "doctor treating how to treat insomnia" default_limit
                   (snd (search "how to treat insomnia" default_limit runtime_library))))).
  - reflexivity.
  - reflexivity.
Defined.

Lemma index_of_honours_limit (hits : list ScoredPoint) : honours_limit (index_of hits).
Proof.
  intros coll v l w hs w'. simpl. intros [= <- _]. rewrite length_take. lia.
Qed.

Lemma retrievals_use_default_limit_witness :
  (exists evs,
     events (snd (process_query "how to treat insomnia" runtime_library))
     = (events runtime_library ++ evs)%list
     /\ Forall (searches_with 5) evs)
  /\ forall text docs rt',
       process_query "how to treat insomnia" runtime_library = (Ok (text, docs), rt') ->
       length docs <= match classify "how to treat insomnia" with
                      | ConditionTreatment => 10
                      | _ => 5
                      end.
Proof.
  apply (retrievals_use_default_limit runtime_library "how to treat insomnia").
  intros c Hc. injection Hc as <-. apply index_of_honours_limit.
Defined.

(** ** Configuration *)

Section Configuration.
Context {W : Type}.
Implicit Types (rt : Runtime W) (os : OperatingSystem).

Lemma apply_env_lookup os (config : gmap string PyValue) (key : string) :
  apply_env os config !! key = env_or os key <$> config !! key.
Proof.
  unfold apply_env, env_or. rewrite map_lookup_imap.
  destruct (config !! key) as [value|]; simpl; [|reflexivity].
  destruct (getenv os key) as [env_value|]; [|reflexivity].
  destruct (String.eqb env_value ""); reflexivity.
Qed.

(** C5, amended. For each of the two built-in keys the loaded configuration
    holds the environment variable when it is set and not empty, otherwise
    the value of [secrets.toml] when the file has the key, otherwise the
    built-in default.  A missing file is not fatal: it is reported as a
    warning and loading goes on from the defaults; any other failure to read
    the file is raised. *)
Theorem load_config_precedence os rt (key : string) (builtin : PyValue) :
  default_config !! key = Some builtin ->
  match load_secrets_toml os with
  | Ok toml_config =>
    exists config,
      load_config os rt = (Ok config, rt)
      /\ config !! key = Some (env_or os key (default builtin (toml_config !! key)))
  | Raise e =>
    if String.eqb (exc_class e) "FileNotFoundError"
    then exists config,
        load_config os rt
        = (Ok config, record (StWarning secrets_missing_msg) rt (outside rt))
        /\ config !! key = Some (env_or os key builtin)
    else load_config os rt = (Raise e, rt)
  end.
Proof.
  intros Hbuiltin. unfold load_config, bind, ret, raise, st_warning.
  destruct (load_secrets_toml os) as [toml_config|e].
  - eexists. split; [reflexivity|].
    rewrite apply_env_lookup, lookup_union, Hbuiltin.
    destruct (toml_config !! key); reflexivity.
  - destruct (String.eqb (exc_class e) "FileNotFoundError"); [|reflexivity].
    eexists. split; [reflexivity|].
    rewrite apply_env_lookup, Hbuiltin. reflexivity.
Qed.

End Configuration.

(** C5 fails as stated: the environment is applied after the file.  With an
    endpoint in [secrets.toml] and another in the environment, the loaded
    endpoint is the one of the environment. *)
Lemma environment_overrides_file :
  exists config,
    load_secrets_toml os_file_and_env = Ok secrets_file
    /\ secrets_file !! "QDRANT_URL" = Some (PyStr "https://qdrant.example.com:6333")
    /\ getenv os_file_and_env "QDRANT_URL" = Some "http://10.0.0.5:6333"
    /\ load_config os_file_and_env runtime_blank = (Ok config, runtime_blank)
    /\ config !! "QDRANT_URL" = Some (PyStr "http://10.0.0.5:6333")
    /\ config !! "QDRANT_API_KEY" = Some (PyStr "file-key").
Proof.
  eexists. split; [reflexivity|].
  split; [vm_compute; reflexivity|]. split; [reflexivity|].
  split; [reflexivity|]. split; vm_compute; reflexivity.
Qed.

Lemma load_config_precedence_witness :
  exists config,
    load_config os_file_and_env runtime_blank = (Ok config, runtime_blank)
    /\ config !! "QDRANT_URL"
       = Some (env_or os_file_and_env "QDRANT_URL"
                 (default (PyStr "http://localhost:6333")
                    (secrets_file !! "QDRANT_URL"))).
Proof.
  apply (load_config_precedence os_file_and_env runtime_blank "QDRANT_URL"
           (PyStr "http://localhost:6333")).
  vm_compute. reflexivity.
Defined.

(** ** Scenarios *)

Example to_document_doctor : to_document hit_doctor = Ok doc_doctor.
Proof. reflexivity. Qed.

Example to_document_herb : to_document hit_herb = Ok doc_herb.
Proof. reflexivity. Qed.

Example to_document_without_metadata :
  to_document {| score := 0.5%float; payload := Some [] |}
  = Ok {| content := PyStr ""; confidence := 0.5%float; metadata := PyDict [];
          is_doctor_info := false |}.
Proof. reflexivity. Qed.

Example to_document_numeric_type :
  to_document hit_untyped
  = Raise (Raised "AttributeError" "'int' object has no attribute 'lower'").
Proof. reflexivity. Qed.

Example to_document_without_payload :
  to_document {| score := 0.5%float; payload := None |}
  = Raise (Raised "AttributeError" "'NoneType' object has no attribute 'get'").
Proof. reflexivity. Qed.

Example classify_general : classify "turmeric benefits" = General.
Proof. reflexivity. Qed.

Example classify_condition : classify "how to treat insomnia" = ConditionTreatment.
Proof. reflexivity. Qed.

(** The flaky encoder: the first search is absorbed, the second is served. *)
Example flaky_then_served :
  fst (bind (search "turmeric" 5) (fun first =>
         bind (search "turmeric" 5) (fun second => ret (first, second)))
         (runtime_of (index_of [hit_herb]) encoder_flaky))
  = Ok ([], [doc_herb]).
Proof. reflexivity. Qed.

(** With a dead index every search of a query is absorbed and the answer is
    generated without context. *)
Example index_down_degrades :
  process_query "how to treat insomnia" (runtime_of index_down encoder)
  = (Ok ("Drink warm water.", []),
     {| vector_db := vector_db (runtime_of index_down encoder);
        agent := agent_terse; outside := 5;
        events :=
          [Encode "how to treat insomnia";
           IndexSearch "myayurhealth_docs" [1%float; 0%float] 5;
           StError (search_error_msg (Raised "ResponseHandlingException" "Connection refused"));
           Encode "doctor treating how to treat insomnia";
           IndexSearch "myayurhealth_docs" [1%float; 0%float] 5;
           StError (search_error_msg (Raised "ResponseHandlingException" "Connection refused"));
           AgentRun (health_general_prompt "how to treat insomnia")] |}).
Proof. reflexivity. Qed.

Example health_answer_lists_doctor_twice :
  fst (process_health_query "how to treat insomnia" runtime_library)
  = Ok ("Drink warm water.", [doc_herb; doc_doctor; doc_doctor]).
Proof. reflexivity. Qed.

Example latched_after_failed_init :
  vector_db runtime_latched
  = {| client := None; model := None; collection_name := None |}
  /\ events runtime_latched
     = [NewQdrantClient InMemory; NewSentenceTransformer "all-MiniLM-L6-v2";
        StError (init_error_msg (Raised "OSError" "all-MiniLM-L6-v2 is not a local folder"))].
Proof. split; reflexivity. Qed.

Example latched_searches :
  search_each [("doctor for migraines", 5%Z); ("turmeric benefits", 3%Z)] runtime_latched
  = (Ok [[]; []], runtime_latched).
Proof. reflexivity. Qed.

Example load_config_bare :
  exists config,
    load_config os_bare runtime_blank
    = (Ok config, record (StWarning secrets_missing_msg) runtime_blank 0)
    /\ config !! "QDRANT_URL" = Some (PyStr "http://localhost:6333")
    /\ config !! "QDRANT_API_KEY" = Some (PyStr "").
Proof.
  eexists. split; [reflexivity|]. split; vm_compute; reflexivity.
Qed.
(** * Further properties *)

(** ** Keywords and routing *)

Lemma lower_split (t a b : string) :
  lower t = a +:+ b ->
  exists a' b', t = a' +:+ b' /\ lower a' = a /\ lower b' = b.
Proof.
  revert t. induction a as [|x a IH]; intros t H.
  - exists "", t. auto.
  - destruct t as [|c t]; [discriminate|].
    rewrite append_cons in H. simpl in H. injection H as Hc Ht.
    destruct (IH t Ht) as (a' & b' & -> & Ha & Hb).
    exists (String c a'), b'. simpl. rewrite Hc, Ha. auto.
Qed.

Lemma contains_lower_inv (keyword query : string) :
  contains keyword (lower query) = true -> occurs_any_case keyword query.
Proof.
  intros H. destruct (contains_inv _ _ H) as (pre & post & E).
  destruct (lower_split _ _ _ E) as (pre' & rest & -> & _ & Hrest).
  destruct (lower_split _ _ _ Hrest) as (mid & post' & -> & Hmid & _).
  exists pre', mid, post'. auto.
Qed.

Lemma any_keyword_mentions (keywords : list string) (query : string) :
  any_keyword keywords query = true <-> mentions keywords query.
Proof.
  split.
  - intros H. apply existsb_exists in H. destruct H as (keyword & Hin & Hc).
    exists keyword. split; [exact Hin|]. apply contains_lower_inv. exact Hc.
  - intros (keyword & Hin & Hocc). exact (any_keyword_intro _ _ _ Hin Hocc).
Qed.

(** X1. The route of a query is decided by occurrence alone: practitioner
    when a practitioner keyword occurs in any letter case, condition/treatment
    when none does and a condition keyword occurs, general when no keyword of
    either list occurs. *)
Theorem classify_by_occurrence (query : string) :
  (classify query = PractitionerLookup <-> mentions doctor_keywords query)
  /\ (classify query = ConditionTreatment <->
      ~ mentions doctor_keywords query /\ mentions health_keywords query)
  /\ (classify query = General <->
      ~ mentions doctor_keywords query /\ ~ mentions health_keywords query).
Proof.
  rewrite <- !any_keyword_mentions. unfold classify.
  destruct (any_keyword doctor_keywords query), (any_keyword health_keywords query);
    repeat split; intros; try discriminate; try tauto;
    match goal with
    | H : _ /\ _ |- _ => destruct H; try discriminate; try tauto
    | _ => idtac
    end.
Qed.

(** ** Hits and documents *)

Lemma dict_get_missing (entries : list (string * PyValue)) (key : string) (d : PyValue) :
  (forall v, ~ In (key, v) entries) -> dict_get entries key d = d.
Proof.
  induction entries as [|[k v] rest IH]; intros Hno; [reflexivity|]. simpl.
  destruct (String.eqb k key) eqn:E.
  - apply String.eqb_eq in E. subst k. exfalso. apply (Hno v). left. reflexivity.
  - apply IH. intros v' Hin. apply (Hno v'). right. exact Hin.
Qed.

Lemma to_document_inv (hit : ScoredPoint) (doc : DocumentResponse) :
  to_document hit = Ok doc ->
  exists entries meta t,
    payload hit = Some entries
    /\ dict_get entries "metadata" (PyDict []) = PyDict meta
    /\ dict_get meta "type" (PyStr "") = PyStr t
    /\ doc = {| content := dict_get entries "text" (PyStr "");
                confidence := score hit;
                metadata := PyDict meta;
                is_doctor_info := contains "doctor" (lower t) |}.
Proof.
  unfold to_document, payload_get.
  destruct (payload hit) as [entries|]; [|discriminate].
  destruct (dict_get entries "metadata" (PyDict [])) as [| | | | | |meta] eqn:Em;
    try discriminate.
  simpl. destruct (dict_get meta "type" (PyStr "")) as [| | | |t| |] eqn:Et;
    try discriminate.
  simpl. intros [= <-]. exists entries, meta, t. auto.
Qed.

Lemma to_document_intro (hit : ScoredPoint) entries meta t :
  payload hit = Some entries ->
  dict_get entries "metadata" (PyDict []) = PyDict meta ->
  dict_get meta "type" (PyStr "") = PyStr t ->
  to_document hit = Ok {| content := dict_get entries "text" (PyStr "");
                           confidence := score hit;
                           metadata := PyDict meta;
                           is_doctor_info := contains "doctor" (lower t) |}.
Proof.
  intros Hp Hm Ht. unfold to_document, payload_get. rewrite Hp, Hm. simpl.
  rewrite Ht. reflexivity.
Qed.

(** X2. A hit becomes a document exactly when it has a payload, the payload's
    metadata (an empty mapping when absent) is a mapping, and the metadata's
    type (the empty text when absent) is text; the document then carries the
    payload's text (empty when absent), the score, the metadata, and the
    doctor flag computed from the lower-cased type. *)
Theorem to_document_ok_iff (hit : ScoredPoint) (doc : DocumentResponse) :
  to_document hit = Ok doc <->
  exists entries meta t,
    payload hit = Some entries
    /\ dict_get entries "metadata" (PyDict []) = PyDict meta
    /\ dict_get meta "type" (PyStr "") = PyStr t
    /\ doc = {| content := dict_get entries "text" (PyStr "");
                confidence := score hit;
                metadata := PyDict meta;
                is_doctor_info := contains "doctor" (lower t) |}.
Proof.
  split; [apply to_document_inv|].
  intros (entries & meta & t & Hp & Hm & Ht & ->).
  exact (to_document_intro hit entries meta t Hp Hm Ht).
Qed.

(** X3. A document is flagged as doctor information exactly when the type in
    its hit's metadata has the word doctor in it, in any letter case. *)
Theorem doctor_flag_iff_type_mentions_doctor (hit : ScoredPoint) (doc : DocumentResponse) :
  to_document hit = Ok doc ->
  exists entries meta t,
    payload hit = Some entries
    /\ dict_get entries "metadata" (PyDict []) = PyDict meta
    /\ dict_get meta "type" (PyStr "") = PyStr t
    /\ (is_doctor_info doc = true <-> occurs_any_case "doctor" t).
Proof.
  intros H. destruct (to_document_inv hit doc H) as (entries & meta & t & Hp & Hm & Ht & ->).
  exists entries, meta, t. repeat (split; [assumption|]). simpl. split.
  - apply contains_lower_inv.
  - intros (pre & mid & post & -> & Hmid). rewrite !lower_app, Hmid. apply contains_app.
Qed.

(** X4. A hit whose payload has no metadata, or whose metadata has no type,
    maps to a document that is not doctor information; its content is the
    payload's text, or the empty text when the payload has none. *)
Theorem untyped_hit_is_not_doctor (hit : ScoredPoint) entries :
  payload hit = Some entries ->
  (forall v, ~ In ("metadata", v) entries)
  \/ (exists meta, dict_get entries "metadata" (PyDict []) = PyDict meta
                   /\ forall v, ~ In ("type", v) meta) ->
  exists doc,
    to_document hit = Ok doc
    /\ is_doctor_info doc = false
    /\ content doc = dict_get entries "text" (PyStr "")
    /\ ((forall v, ~ In ("text", v) entries) -> content doc = PyStr "").
Proof.
  intros Hp Hcase.
  assert (Hmeta : exists meta, dict_get entries "metadata" (PyDict []) = PyDict meta
                               /\ forall v, ~ In ("type", v) meta).
  { destruct Hcase as [Hno|H]; [|exact H].
    exists []. split; [apply dict_get_missing; exact Hno|]. intros v []. }
  destruct Hmeta as (meta & Hm & Hnotype).
  pose proof (dict_get_missing meta "type" (PyStr "") Hnotype) as Ht.
  eexists. split; [exact (to_document_intro hit entries meta "" Hp Hm Ht)|].
  simpl. repeat split. intros Hnotext. apply dict_get_missing. exact Hnotext.
Qed.

Lemma to_documents_Forall2 (hits : list ScoredPoint) (docs : list DocumentResponse) :
  to_documents hits = Ok docs <-> Forall2 (fun h d => to_document h = Ok d) hits docs.
Proof.
  revert docs. induction hits as [|h hits IH]; intros docs; simpl.
  - split.
    + intros [= <-]. constructor.
    + intros H. inversion H. reflexivity.
  - split.
    + destruct (to_document h) as [d|] eqn:Ed; [|discriminate].
      destruct (to_documents hits) as [ds|]; [|discriminate].
      intros [= <-]. constructor; [exact Ed|]. apply IH. reflexivity.
    + intros H. inversion H as [|h' d hs ds Hd Hrest]; subst.
      rewrite Hd. apply IH in Hrest. rewrite Hrest. reflexivity.
Qed.

(** X5. The comprehension of [search] yields documents exactly when every
    hit maps to one: then there is one document per hit, in the order of the
    hits, each built from the hit at its position. *)
Theorem to_documents_in_hit_order (hits : list ScoredPoint) (docs : list DocumentResponse) :
  to_documents hits = Ok docs <->
  length docs = length hits
  /\ forall i hit, hits !! i = Some hit ->
       exists doc, docs !! i = Some doc /\ to_document hit = Ok doc.
Proof.
  rewrite to_documents_Forall2. split.
  - intros H. split; [symmetry; exact (Forall2_length _ _ _ H)|].
    intros i hit Hi. destruct (Forall2_lookup_l _ _ _ _ _ H Hi) as (doc & Hd & Hok).
    exists doc. auto.
  - intros [Hlen Hall]. apply Forall2_same_length_lookup_2; [symmetry; exact Hlen|].
    intros i hit doc Hi Hd. destruct (Hall i hit Hi) as (doc' & Hd' & Hok).
    rewrite Hd in Hd'. injection Hd' as <-. exact Hok.
Qed.

(** ** The gateway, call by call *)

Lemma to_documents_total (hits : list ScoredPoint) :
  Forall (fun hit => exists doc, to_document hit = Ok doc) hits ->
  exists docs, to_documents hits = Ok docs.
Proof.
  induction 1 as [|h hits [d Hd] _ [ds IH]]; simpl; [eauto|].
  rewrite Hd, IH. eauto.
Qed.

Lemma Forall2_confidence (hits : list ScoredPoint) (docs : list DocumentResponse) :
  Forall2 (fun h d => to_document h = Ok d) hits docs ->
  map confidence docs = map score hits.
Proof.
  induction 1 as [|h d hits docs Hd _ IH]; [reflexivity|].
  simpl. rewrite IH, (to_document_confidence h d Hd). reflexivity.
Qed.

Section GatewayCalls.
Context {W : Type}.
Implicit Types (rt : Runtime W) (query : string) (limit : Z).

(** X6. [search] never raises and never touches the gateway or the agent.
    One call does one of four things: nothing at all (gateway disabled);
    encode and query the index; encode and report; encode, query the index
    and report.  It reports at most once, and returns documents only when it
    reports nothing. *)
Theorem search_never_raises rt query limit :
  exists docs rt',
    search query limit rt = (Ok docs, rt')
    /\ vector_db rt' = vector_db rt /\ agent rt' = agent rt
    /\ ((docs = [] /\ rt' = rt)
        \/ (exists coll v,
              events rt' = (events rt ++ [Encode query; IndexSearch coll v limit])%list)
        \/ (exists msg,
              docs = []
              /\ events rt' = (events rt ++ [Encode query; StError msg])%list)
        \/ (exists coll v msg,
              docs = []
              /\ events rt'
                 = (events rt ++ [Encode query; IndexSearch coll v limit; StError msg])%list)).
Proof.
  unfold search, model_encode, client_search, try_except, bind,
    get_vector_db, call, lift, st_error, ret, raise, record.
  destruct rt as [[[c|] [m|] coll] ag w evs]; simpl;
    try (eexists _, _; repeat split; left; split; reflexivity).
  destruct (encode m query w) as [[v|e] w1]; simpl.
  - destruct coll as [coll|]; simpl.
    + destruct (search_points c coll v limit w1) as [[hits|e] w2]; simpl.
      * destruct (to_documents hits) as [docs|e]; simpl.
        -- eexists _, _. repeat split. right. left. exists coll, v.
           rewrite <- app_assoc. reflexivity.
        -- eexists _, _. repeat split. right. right. right. eexists coll, v, _.
           rewrite <- !app_assoc. split; reflexivity.
      * eexists _, _. repeat split. right. right. right. eexists coll, v, _.
        rewrite <- !app_assoc. split; reflexivity.
    + eexists _, _. repeat split. right. right. left. eexists.
      rewrite <- !app_assoc. split; reflexivity.
  - eexists _, _. repeat split. right. right. left. eexists.
    rewrite <- !app_assoc. split; reflexivity.
Qed.

(** X7. When the encoder and the index answer and every hit is well formed,
    [search] returns one document per hit, in the index's order and with the
    index's scores, and reports nothing. *)
Theorem well_formed_hits_are_all_returned rt query limit c m coll v w1 hits w2 :
  vector_db rt = {| client := Some c; model := Some m; collection_name := Some coll |} ->
  encode m query (outside rt) = (Ok v, w1) ->
  search_points c coll v limit w1 = (Ok hits, w2) ->
  Forall (fun hit => exists doc, to_document hit = Ok doc) hits ->
  exists docs,
    search query limit rt
    = (Ok docs, {| vector_db := vector_db rt; agent := agent rt; outside := w2;
                   events := ((events rt ++ [Encode query])
                              ++ [IndexSearch coll v limit])%list |})
    /\ length docs = length hits
    /\ map confidence docs = map score hits
    /\ Forall2 (fun h d => to_document h = Ok d) hits docs.
Proof.
  intros Hv He Hs Hall. destruct (to_documents_total hits Hall) as [docs Hd].
  exists docs. split; [exact (search_succeeds rt query limit c m coll v w1 hits w2 docs Hv He Hs Hd)|].
  pose proof (proj1 (to_documents_Forall2 hits docs) Hd) as HF.
  split; [exact (to_documents_length hits docs Hd)|].
  split; [exact (Forall2_confidence hits docs HF)|exact HF].
Qed.

(** ** Construction of the gateway *)

Ltac unfold_init :=
  unfold VectorDBService_init, try_except, bind, call, set_client, set_model,
    set_collection_name, set_vector_db, get_vector_db, st_error, record.

Lemma init_error_msg_contact (e : Exception) :
  contains SUPPORT_EMAIL (init_error_msg e) = true
  /\ contains SUPPORT_PHONE (init_error_msg e) = true.
Proof.
  unfold init_error_msg. split; do 2 apply contains_app_r; reflexivity.
Qed.

(** What [__init__] does, by the outcome of the two constructors. *)
Lemma VectorDBService_init_cases (lib : Libraries W) (api_url api_key : PyValue) rt :
  let loc := connect_location api_url api_key in
  match QdrantClient_new lib loc (outside rt) with
  | (Raise e, w1) =>
    VectorDBService_init lib api_url api_key rt
    = (Ok tt, {| vector_db := {| client := None; model := None;
                                 collection_name := collection_name (vector_db rt) |};
                 agent := agent rt; outside := w1;
                 events := (events rt ++ [NewQdrantClient loc;
                                          StError (init_error_msg e)])%list |})
  | (Ok c, w1) =>
    match SentenceTransformer_new lib "all-MiniLM-L6-v2" w1 with
    | (Raise e, w2) =>
      VectorDBService_init lib api_url api_key rt
      = (Ok tt, {| vector_db := {| client := None; model := None;
                                   collection_name := collection_name (vector_db rt) |};
                   agent := agent rt; outside := w2;
                   events := (events rt ++ [NewQdrantClient loc;
                                            NewSentenceTransformer "all-MiniLM-L6-v2";
                                            StError (init_error_msg e)])%list |})
    | (Ok m, w2) =>
      VectorDBService_init lib api_url api_key rt
      = (Ok tt, {| vector_db := {| client := Some c; model := Some m;
                                   collection_name := Some "myayurhealth_docs" |};
                   agent := agent rt; outside := w2;
                   events := (events rt ++ [NewQdrantClient loc;
                                            NewSentenceTransformer "all-MiniLM-L6-v2"])%list |})
    end
  end.
Proof.
  unfold connect_location. unfold_init.
  destruct rt as [[c0 m0 coll0] ag w evs]. simpl.
  destruct (truthy api_url && truthy api_key); simpl;
    match goal with |- context [QdrantClient_new lib ?loc w] =>
      destruct (QdrantClient_new lib loc w) as [[c|e] w1] end; simpl;
    try (rewrite <- !app_assoc; reflexivity);
    destruct (SentenceTransformer_new lib "all-MiniLM-L6-v2" w1) as [[m|e] w2];
    simpl; rewrite <- !app_assoc; reflexivity.
Qed.

(** X8. When both constructors succeed, [__init__] leaves an enabled gateway
    on the collection myayurhealth_docs, having made exactly the two
    constructor calls and no report. *)
Theorem init_success_enables (lib : Libraries W) (api_url api_key : PyValue) rt c w1 m w2 :
  QdrantClient_new lib (connect_location api_url api_key) (outside rt) = (Ok c, w1) ->
  SentenceTransformer_new lib "all-MiniLM-L6-v2" w1 = (Ok m, w2) ->
  VectorDBService_init lib api_url api_key rt
  = (Ok tt, {| vector_db := {| client := Some c; model := Some m;
                               collection_name := Some "myayurhealth_docs" |};
               agent := agent rt; outside := w2;
               events := (events rt
                          ++ [NewQdrantClient (connect_location api_url api_key);
                              NewSentenceTransformer "all-MiniLM-L6-v2"])%list |}).
Proof.
  intros Hc Hm. pose proof (VectorDBService_init_cases lib api_url api_key rt) as H.
  simpl in H. rewrite Hc, Hm in H. exact H.
Qed.

(** X9. When a constructor raises, [__init__] does not: it reports the
    exception with the support contact as its last call and leaves both
    [client] and [model] at [None], also when the client had already been
    built.  Every search on the gateway it leaves returns nothing. *)
Theorem init_failure_latches (lib : Libraries W) (api_url api_key : PyValue) rt e :
  (exists w1, QdrantClient_new lib (connect_location api_url api_key) (outside rt)
              = (Raise e, w1))
  \/ (exists c w1 w2,
        QdrantClient_new lib (connect_location api_url api_key) (outside rt) = (Ok c, w1)
        /\ SentenceTransformer_new lib "all-MiniLM-L6-v2" w1 = (Raise e, w2)) ->
  exists rt',
    VectorDBService_init lib api_url api_key rt = (Ok tt, rt')
    /\ client (vector_db rt') = None /\ model (vector_db rt') = None
    /\ last (events rt') = Some (StError (init_error_msg e))
    /\ contains SUPPORT_EMAIL (init_error_msg e) = true
    /\ contains SUPPORT_PHONE (init_error_msg e) = true
    /\ forall query limit, search query limit rt' = (Ok [], rt').
Proof.
  intros Hfail. pose proof (VectorDBService_init_cases lib api_url api_key rt) as H.
  simpl in H. destruct (init_error_msg_contact e) as [Hmail Hphone].
  destruct Hfail as [(w1 & Hc) | (c & w1 & w2 & Hc & Hm)].
  - rewrite Hc in H. eexists. split; [exact H|]. simpl.
    split; [reflexivity|]. split; [reflexivity|].
    split; [rewrite last_app; reflexivity|].
    split; [exact Hmail|]. split; [exact Hphone|].
    intros query limit. apply search_disabled. left. reflexivity.
  - rewrite Hc, Hm in H. eexists. split; [exact H|]. simpl.
    split; [reflexivity|]. split; [reflexivity|].
    split; [rewrite last_app; reflexivity|].
    split; [exact Hmail|]. split; [exact Hphone|].
    intros query limit. apply search_disabled. left. reflexivity.
Qed.

(** X10. [__init__] asks for a client exactly once, before anything else: a
    remote one when both the endpoint and the credential are truthy, an
    in-memory one otherwise, so an endpoint without a credential is not
    dialled. *)
Theorem init_connects_once (lib : Libraries W) (api_url api_key : PyValue) rt :
  exists rest,
    events (snd (VectorDBService_init lib api_url api_key rt))
    = (events rt
       ++ NewQdrantClient (if truthy api_url && truthy api_key
                           then Remote api_url api_key else InMemory) :: rest)%list
    /\ existsb is_connect rest = false
    /\ length rest <= 2.
Proof.
  pose proof (VectorDBService_init_cases lib api_url api_key rt) as H.
  simpl in H. fold (connect_location api_url api_key).
  destruct (QdrantClient_new lib _ (outside rt)) as [[c|e] w1].
  - destruct (SentenceTransformer_new lib _ w1) as [[m|e] w2];
      rewrite H; simpl; eexists; (split; [reflexivity|]); simpl; split; auto.
  - rewrite H. simpl. eexists. split; [reflexivity|]. simpl. split; auto.
Qed.

End GatewayCalls.
(** ** Start-up *)

Section StartUp.
Context {W : Type}.
Implicit Types (rt : Runtime W) (os : OperatingSystem).

(** [__init__] returns with the agent it found, having first asked for a
    client at the location the two arguments select, and then at most loaded
    the model and reported. *)
Lemma init_events (lib : Libraries W) (api_url api_key : PyValue) rt :
  exists rt' rest,
    VectorDBService_init lib api_url api_key rt = (Ok tt, rt')
    /\ agent rt' = agent rt
    /\ events rt'
       = (events rt ++ NewQdrantClient (connect_location api_url api_key) :: rest)%list
    /\ existsb is_connect rest = false
    /\ existsb is_pipeline_call rest = false
    /\ length rest <= 2.
Proof.
  pose proof (VectorDBService_init_cases lib api_url api_key rt) as H. simpl in H.
  destruct (QdrantClient_new lib _ (outside rt)) as [[c|e] w1].
  - destruct (SentenceTransformer_new lib _ w1) as [[m|e] w2];
      rewrite H; eexists _, _; (split; [reflexivity|]); simpl;
      (split; [reflexivity|]); (split; [reflexivity|]); simpl; auto.
  - rewrite H. eexists _, _. split; [reflexivity|]. simpl.
    split; [reflexivity|]. split; [reflexivity|]. simpl. auto.
Qed.

Lemma expert_system_init_events (lib : Libraries W) (new_agent : Result (Agent W))
    (config : gmap string PyValue) rt :
  exists rest,
    events (snd (AyurvedaExpertSystem_init lib new_agent config rt))
    = (events rt
       ++ NewQdrantClient (connect_location (config_get config "QDRANT_URL")
                                            (config_get config "QDRANT_API_KEY"))
          :: rest)%list
    /\ existsb is_connect rest = false
    /\ existsb is_pipeline_call rest = false.
Proof.
  unfold AyurvedaExpertSystem_init. unfold bind at 1.
  destruct (init_events lib (config_get config "QDRANT_URL")
              (config_get config "QDRANT_API_KEY") rt)
    as (rt1 & rest & Hinit & _ & Hev & Hc & Hp & _).
  rewrite Hinit. exists rest. split; [|auto].
  unfold bind, lift, set_agent. destruct new_agent; simpl; exact Hev.
Qed.

Lemma config_get_apply_env os (config : gmap string PyValue) (key : string) (v : PyValue) :
  config !! key = Some v ->
  config_get (apply_env os config) key = env_or os key v.
Proof.
  intros H. unfold config_get. rewrite apply_env_lookup, H. reflexivity.
Qed.

(** X11. With no secrets.toml and no credential in the environment the
    gateway is built in memory, whatever the endpoint resolves to: neither
    the built-in localhost endpoint nor one given in the environment is
    dialled without a credential. *)
Theorem no_credential_means_in_memory os (lib : Libraries W)
    (new_agent : Result (Agent W)) rt e :
  load_secrets_toml os = Raise e ->
  exc_class e = "FileNotFoundError" ->
  getenv os "QDRANT_API_KEY" = None \/ getenv os "QDRANT_API_KEY" = Some "" ->
  exists rest,
    events (snd (startup os lib new_agent rt))
    = (events rt ++ StWarning secrets_missing_msg :: NewQdrantClient InMemory :: rest)%list
    /\ existsb is_connect rest = false.
Proof.
  intros Hload Hclass Hkey.
  unfold startup, load_config. unfold bind at 1 2. rewrite Hload, Hclass. simpl.
  destruct (expert_system_init_events lib new_agent (apply_env os default_config)
              (record (StWarning secrets_missing_msg) rt (outside rt)))
    as (rest & Hev & Hc & _).
  rewrite (config_get_apply_env os default_config "QDRANT_API_KEY" (PyStr "")) in Hev
    by reflexivity.
  assert (Hfalsy : truthy (env_or os "QDRANT_API_KEY" (PyStr "")) = false).
  { unfold env_or. destruct Hkey as [-> | ->]; reflexivity. }
  unfold connect_location in Hev. rewrite Hfalsy, andb_false_r in Hev.
  exists rest. split; [|exact Hc].
  rewrite Hev. simpl. rewrite <- app_assoc. reflexivity.
Qed.

(** X12. When secrets.toml loads, the configuration has exactly the keys of
    the file and the two built-in keys, every value of the file is kept
    unless a non-empty environment variable of the same name replaces it, and
    nothing is reported. *)
Theorem load_config_keys os rt (toml_config : gmap string PyValue) :
  load_secrets_toml os = Ok toml_config ->
  exists config,
    load_config os rt = (Ok config, rt)
    /\ (forall key, is_Some (config !! key) <->
                    is_Some (toml_config !! key)
                    \/ key = "QDRANT_URL" \/ key = "QDRANT_API_KEY")
    /\ (forall key v, toml_config !! key = Some v ->
                      config !! key = Some (env_or os key v)).
Proof.
  intros Hload. unfold load_config, bind, ret. rewrite Hload.
  eexists. split; [reflexivity|]. split.
  - intros key. rewrite apply_env_lookup, fmap_is_Some, lookup_union_is_Some.
    unfold default_config.
    rewrite lookup_insert_is_Some, lookup_insert_is_Some, lookup_empty.
    split.
    + intros [H|[H|[_ [H|[_ H]]]]]; subst; auto.
      destruct (is_Some_None H).
    + intros [H|[->| ->]]; auto.
  - intros key v Hv. rewrite apply_env_lookup, lookup_union, Hv.
    destruct (default_config !! key); reflexivity.
Qed.

End StartUp.
(** ** Context assembly *)

Lemma strs_from_ok (values : list PyValue) :
  forall i strs, strs_from i values = Ok strs -> values = map PyStr strs.
Proof.
  induction values as [|v values IH]; simpl; intros i strs H.
  - injection H as <-. reflexivity.
  - destruct v; try discriminate.
    destruct (strs_from (S i) values) as [l|] eqn:E; [|discriminate].
    injection H as <-. simpl. f_equal. exact (IH _ _ E).
Qed.

Lemma strs_from_raise (values : list PyValue) :
  forall i e, strs_from i values = Raise e -> exc_class e = "TypeError".
Proof.
  induction values as [|v values IH]; simpl; intros i e H; [discriminate|].
  destruct v; try (injection H as <-; reflexivity).
  destruct (strs_from (S i) values) as [l|e'] eqn:E; [discriminate|].
  injection H as <-. exact (IH _ _ E).
Qed.

Lemma strs_from_not_text (values : list PyValue) (v : PyValue) :
  In v values -> (forall s, v <> PyStr s) ->
  forall i, exists e, strs_from i values = Raise e.
Proof.
  induction values as [|x values IH]; simpl; intros Hin Hv i; [contradiction|].
  destruct Hin as [->|Hin].
  - destruct v; eauto. exfalso. exact (Hv s eq_refl).
  - destruct x; eauto.
    destruct (IH Hin Hv (S i)) as [e ->]. eauto.
Qed.

Lemma py_join_ok (sep : string) (values : list PyValue) (s : string) :
  py_join sep values = Ok s ->
  exists strs, values = map PyStr strs /\ s = join sep strs.
Proof.
  unfold py_join. destruct (strs_from 0 values) as [l|] eqn:E; [|discriminate].
  intros [= <-]. exists l. split; [exact (strs_from_ok _ _ _ E)|reflexivity].
Qed.

Lemma py_join_raise (sep : string) (values : list PyValue) (e : Exception) :
  py_join sep values = Raise e -> exc_class e = "TypeError".
Proof.
  unfold py_join. destruct (strs_from 0 values) as [l|e'] eqn:E; [discriminate|].
  intros [= <-]. exact (strs_from_raise _ _ _ E).
Qed.

Lemma filter_doctor_Forall (docs : list DocumentResponse) :
  Forall (fun doc => is_doctor_info doc = true) (doctor_only docs).
Proof.
  unfold doctor_only. apply Forall_forall. intros doc Hin.
  apply list_elem_of_filter in Hin. tauto.
Qed.

Section Answers.
Context {W : Type}.
Implicit Types (rt : Runtime W) (query : string).

Lemma answered_direct rt1 prompt text (docs out : list DocumentResponse) rt' :
  bind (agent_run prompt) (fun response => ret (response, out)) rt1
  = (Ok (text, docs), rt') ->
  docs = out /\ last (events rt') = Some (AgentRun prompt).
Proof.
  unfold agent_run, bind, get_agent, call, ret, record.
  destruct (run (agent rt1) prompt (outside rt1)) as [[t|e] w]; [|discriminate].
  intros [= _ <- <-]. simpl. rewrite last_snoc. auto.
Qed.

Lemma answered_from_context rt1 (prompt_of : string -> string) text
    (ds docs out : list DocumentResponse) rt' :
  bind (context_of ds) (fun context =>
    bind (agent_run (prompt_of context)) (fun response => ret (response, out))) rt1
  = (Ok (text, docs), rt') ->
  docs = out
  /\ exists strs, map content ds = map PyStr strs
                  /\ last (events rt') = Some (AgentRun (prompt_of (join nl strs))).
Proof.
  unfold context_of, lift. unfold bind at 1.
  destruct (py_join nl (map content ds)) as [context|e] eqn:E; [|discriminate].
  intros H. destruct (answered_direct _ _ _ _ _ _ H) as [Hd Hl].
  destruct (py_join_ok _ _ _ E) as (strs & Hs & ->).
  split; [exact Hd|]. exists strs. auto.
Qed.

Lemma failed_direct rt1 prompt (out : list DocumentResponse) e rt' :
  bind (agent_run prompt) (fun response => ret (response, out)) rt1 = (Raise e, rt') ->
  last (events rt') = Some (AgentRun prompt)
  /\ run (agent rt1) prompt (outside rt1) = (Raise e, outside rt').
Proof.
  unfold agent_run, bind, get_agent, call, ret, record.
  destruct (run (agent rt1) prompt (outside rt1)) as [[t|e'] w]; [discriminate|].
  intros [= <- <-]. simpl. rewrite last_snoc. auto.
Qed.

Lemma failed_from_context rt1 (prompt_of : string -> string)
    (ds out : list DocumentResponse) e rt' :
  bind (context_of ds) (fun context =>
    bind (agent_run (prompt_of context)) (fun response => ret (response, out))) rt1
  = (Raise e, rt') ->
  (exists prompt, last (events rt') = Some (AgentRun prompt)
                  /\ run (agent rt1) prompt (outside rt1) = (Raise e, outside rt'))
  \/ (exc_class e = "TypeError" /\ rt' = rt1).
Proof.
  unfold context_of, lift. unfold bind at 1.
  destruct (py_join nl (map content ds)) as [context|e'] eqn:E.
  - intros H. left. exists (prompt_of context). exact (failed_direct _ _ _ _ _ H).
  - intros [= <- <-]. right. split; [exact (py_join_raise _ _ _ E)|reflexivity].
Qed.

(** X13. [process_query] raises only what the generation agent raised on the
    one prompt it was given, or a [TypeError] when a document's content is
    not text; in the second case the agent has not been called. *)
Theorem process_query_failures rt query e rt' :
  process_query query rt = (Raise e, rt') ->
  (exists prompt w,
     last (events rt') = Some (AgentRun prompt)
     /\ run (agent rt) prompt w = (Raise e, outside rt'))
  \/ (exc_class e = "TypeError"
      /\ agent_calls (events rt') = agent_calls (events rt)).
Proof.
  assert (Hquiet : forall rt1 evs,
            events rt1 = (events rt ++ evs)%list -> forallb search_call evs = true ->
            agent_calls (events rt1) = agent_calls (events rt)).
  { intros rt1 evs Hev Hc.
    rewrite Hev, agent_calls_app, (agent_calls_search_calls _ Hc). apply app_nil_r. }
  unfold process_query.
  destruct (search_returns rt query default_limit)
    as (ds & rt1 & evs & Hs & _ & Ha & Hev & Hcalls & _).
  destruct (any_keyword doctor_keywords query);
    [|destruct (any_keyword health_keywords query)].
  - unfold process_doctor_query, bind at 1. rewrite Hs.
    destruct (filter _ ds) as [|d l]; [discriminate|].
    intros H. destruct (failed_from_context _ _ _ _ _ _ H) as [(p & Hl & Hr)|[Ht ->]].
    + left. exists p, (outside rt1). rewrite <- Ha. auto.
    + right. split; [exact Ht|exact (Hquiet _ _ Hev Hcalls)].
  - destruct (search_returns rt1 ("doctor treating " +:+ query) default_limit)
      as (ds2 & rt2 & evs2 & Hs2 & _ & Ha2 & Hev2 & Hcalls2 & _).
    rewrite Ha in Ha2.
    assert (Hq2 : agent_calls (events rt2) = agent_calls (events rt)).
    { apply (Hquiet rt2 (evs ++ evs2)%list).
      - rewrite Hev2, Hev, app_assoc. reflexivity.
      - rewrite forallb_app, Hcalls, Hcalls2. reflexivity. }
    unfold process_health_query, bind at 1 2. rewrite Hs, Hs2.
    destruct (ds ++ filter _ ds2)%list as [|d l].
    + intros H. left. destruct (failed_direct _ _ _ _ _ H) as [Hl Hr].
      eexists _, (outside rt2). rewrite <- Ha2. eauto.
    + intros H. destruct (failed_from_context _ _ _ _ _ _ H) as [(p & Hl & Hr)|[Ht ->]].
      * left. exists p, (outside rt2). rewrite <- Ha2. auto.
      * right. auto.
  - unfold bind at 1. rewrite Hs. destruct ds as [|d l].
    + intros H. left. destruct (failed_direct _ _ _ _ _ H) as [Hl Hr].
      eexists _, (outside rt1). rewrite <- Ha. eauto.
    + intros H. destruct (failed_from_context _ _ _ _ _ _ H) as [(p & Hl & Hr)|[Ht ->]].
      * left. exists p, (outside rt1). rewrite <- Ha. auto.
      * right. split; [exact Ht|exact (Hquiet _ _ Hev Hcalls)].
Qed.

(** X14. An answer with supporting documents was generated from exactly
    their contents: the contents are all text, and the last call is the
    agent's, on the prompt of the query's route built around these contents
    joined by newlines, in the order of the documents.  An answer without
    documents is the fixed no-doctor text or was generated from the no-context
    prompt of the route. *)
Theorem answers_cite_their_context rt query text docs rt' :
  process_query query rt = (Ok (text, docs), rt') ->
  match docs with
  | [] =>
    text = no_doctors_text
    \/ exists prompt,
         fallback_prompt (classify query) query = Some prompt
         /\ last (events rt') = Some (AgentRun prompt)
  | _ =>
    exists strs,
      map content docs = map PyStr strs
      /\ last (events rt')
         = Some (AgentRun (context_prompt (classify query) query (join nl strs)))
  end.
Proof.
  unfold process_query, classify.
  destruct (search_returns rt query default_limit) as (ds & rt1 & evs & Hs & _).
  destruct (any_keyword doctor_keywords query);
    [|destruct (any_keyword health_keywords query)].
  - unfold process_doctor_query, bind at 1. rewrite Hs.
    destruct (filter _ ds) as [|d l] eqn:F.
    + intros [= <- <- _]. left. reflexivity.
    + intros H. destruct (answered_from_context _ doctor_prompt _ _ _ _ _ H)
        as (-> & strs & Hc & Hl).
      exists strs. auto.
  - destruct (search_returns rt1 ("doctor treating " +:+ query) default_limit)
      as (ds2 & rt2 & evs2 & Hs2 & _).
    unfold process_health_query, bind at 1 2. rewrite Hs, Hs2.
    destruct (ds ++ filter _ ds2)%list as [|d l].
    + intros H. destruct (answered_direct _ _ _ _ _ _ H) as [-> Hl].
      right. eexists. split; [reflexivity|exact Hl].
    + intros H. destruct (answered_from_context _ (health_prompt query) _ _ _ _ _ H)
        as (-> & strs & Hc & Hl).
      exists strs. auto.
  - unfold bind at 1. rewrite Hs. destruct ds as [|d l].
    + intros H. destruct (answered_direct _ _ _ _ _ _ H) as [-> Hl].
      right. eexists. split; [reflexivity|exact Hl].
    + intros H. destruct (answered_from_context _ (general_prompt query) _ _ _ _ _ H)
        as (-> & strs & Hc & Hl).
      exists strs. auto.
Qed.

(** X15. The supporting documents of an answer to a practitioner query are
    all marked as doctor information: a document of another type never
    reaches the prompt or the list of sources of such an answer. *)
Theorem practitioner_answers_list_only_doctors rt query text docs rt' :
  classify query = PractitionerLookup ->
  process_query query rt = (Ok (text, docs), rt') ->
  Forall (fun doc => is_doctor_info doc = true) docs.
Proof.
  intros Hc. pose proof (process_query_routes (W := W) query) as Hroute.
  rewrite Hc in Hroute. rewrite Hroute.
  destruct (search_returns rt query default_limit) as (ds & rt1 & evs & Hs & _).
  pose proof (filter_doctor_Forall ds) as HF. unfold doctor_only in HF.
  unfold process_doctor_query, bind at 1. rewrite Hs.
  destruct (filter _ ds) as [|d l].
  - intros [= _ <- _]. constructor.
  - intros H. destruct (answered_from_context _ doctor_prompt _ _ _ _ _ H) as [-> _].
    exact HF.
Qed.

(** *** How often the agent is called *)

Lemma generates_ret {A} (a : A) : generates_at_most 0 (@ret W A a).
Proof. intros rt. exists []. simpl. rewrite app_nil_r. auto. Qed.

Lemma generates_lift {A} (r : Result A) : generates_at_most 0 (@lift W A r).
Proof. intros rt. exists []. simpl. rewrite app_nil_r. auto. Qed.

Lemma generates_agent_run (prompt : string) : generates_at_most 1 (@agent_run W prompt).
Proof.
  intros rt. exists [prompt]. unfold agent_run, bind, get_agent, call, record.
  destruct (run (agent rt) prompt (outside rt)) as [r w]. simpl.
  rewrite agent_calls_app. auto.
Qed.

Lemma generates_search query (limit : Z) : generates_at_most 0 (@search W query limit).
Proof.
  intros rt.
  destruct (search_returns rt query limit) as (docs & rt' & evs & Hs & _ & _ & Hev & Hc & _).
  exists []. rewrite Hs. simpl.
  rewrite Hev, agent_calls_app, (agent_calls_search_calls _ Hc). auto.
Qed.

Lemma generates_bind (n1 n2 : nat) {A B} (c : M W A) (k : A -> M W B) :
  generates_at_most n1 c -> (forall a, generates_at_most n2 (k a)) ->
  generates_at_most (n1 + n2) (bind c k).
Proof.
  intros Hc Hk rt. unfold bind.
  destruct (Hc rt) as (p1 & E1 & L1).
  destruct (c rt) as [[a|e] rt1]; simpl in *.
  - destruct (Hk a rt1) as (p2 & E2 & L2).
    exists (p1 ++ p2)%list. rewrite E2, E1, app_assoc, length_app.
    split; [reflexivity|lia].
  - exists p1. split; [exact E1|lia].
Qed.

Lemma generates_tail (docs out : list DocumentResponse) (prompt_of : string -> string) :
  generates_at_most 1
    (bind (@context_of W docs) (fun context =>
       bind (agent_run (prompt_of context)) (fun response => ret (response, out)))).
Proof.
  apply (generates_bind 0 1); [apply generates_lift|]. intros context.
  apply (generates_bind 1 0); [apply generates_agent_run|].
  intros; apply generates_ret.
Qed.

Lemma generates_weaken (n m : nat) {A} (c : M W A) :
  n <= m -> generates_at_most n c -> generates_at_most m c.
Proof.
  intros Hle Hc rt. destruct (Hc rt) as (p & E & L). exists p. split; [exact E|lia].
Qed.

(** X16. Answering a query calls the generation agent at most once, however
    many searches the route makes and whether or not they fail. *)
Theorem at_most_one_generation_call query :
  generates_at_most 1 (@process_query W query).
Proof.
  assert (Hdirect : forall prompt,
            generates_at_most 1
              (bind (@agent_run W prompt)
                    (fun response => ret (response, @nil DocumentResponse)))).
  { intros prompt. apply (generates_bind 1 0); [apply generates_agent_run|].
    intros; apply generates_ret. }
  unfold process_query.
  destruct (any_keyword doctor_keywords query);
    [|destruct (any_keyword health_keywords query)].
  - unfold process_doctor_query.
    apply (generates_bind 0 1); [apply generates_search|]. intros docs.
    destruct (filter _ docs);
      [apply (generates_weaken 0); [lia|apply generates_ret]|apply generates_tail].
  - unfold process_health_query.
    apply (generates_bind 0 1); [apply generates_search|]. intros condition_docs.
    apply (generates_bind 0 1); [apply generates_search|]. intros doctor_docs.
    destruct (condition_docs ++ filter _ doctor_docs)%list;
      [apply Hdirect|apply generates_tail].
  - apply (generates_bind 0 1); [apply generates_search|]. intros docs.
    destruct docs; [apply Hdirect|apply generates_tail].
Qed.

(** X17. With a disabled gateway nothing is searched: a practitioner query
    gets the fixed no-doctor answer without any call, and any other query is
    answered by the agent alone, from the no-context prompt of its route,
    with no supporting documents. *)
Theorem disabled_gateway_degrades rt query :
  client (vector_db rt) = None \/ model (vector_db rt) = None ->
  match fallback_prompt (classify query) query with
  | None => process_query query rt = (Ok (no_doctors_text, []), rt)
  | Some prompt =>
    process_query query rt
    = match run (agent rt) prompt (outside rt) with
      | (Ok text, w) => (Ok (text, []), record (AgentRun prompt) rt w)
      | (Raise e, w) => (Raise e, record (AgentRun prompt) rt w)
      end
  end.
Proof.
  intros Hoff. unfold classify, process_query.
  pose proof (search_disabled rt query default_limit Hoff) as Hs.
  pose proof (search_disabled rt ("doctor treating " +:+ query) default_limit Hoff) as Hs2.
  destruct (any_keyword doctor_keywords query);
    [|destruct (any_keyword health_keywords query)]; simpl.
  - unfold process_doctor_query, bind at 1. rewrite Hs. reflexivity.
  - unfold process_health_query, bind at 1 2. rewrite Hs, Hs2. simpl.
    unfold agent_run, bind, get_agent, call, ret.
    destruct (run (agent rt) _ (outside rt)) as [[t|e] w]; reflexivity.
  - unfold bind at 1. rewrite Hs.
    unfold agent_run, bind, get_agent, call, ret.
    destruct (run (agent rt) _ (outside rt)) as [[t|e] w]; reflexivity.
Qed.

(** X18. A general query whose search returns a document with a content that
    is not text cannot be answered: joining the contents raises [TypeError]
    and [process_query] lets it through, before the agent is called. *)
Theorem non_text_content_is_fatal rt query docs rt1 doc :
  classify query = General ->
  search query default_limit rt = (Ok docs, rt1) ->
  In doc docs ->
  (forall s, content doc <> PyStr s) ->
  exists e,
    process_query query rt = (Raise e, rt1)
    /\ exc_class e = "TypeError".
Proof.
  unfold classify, process_query.
  destruct (any_keyword doctor_keywords query); [discriminate|].
  destruct (any_keyword health_keywords query); [discriminate|].
  intros _ Hs Hin Hbad.
  destruct (strs_from_not_text (map content docs) (content doc)
              (in_map content docs doc Hin) Hbad 0) as [e He].
  exists e. split; [|exact (strs_from_raise _ _ _ He)].
  unfold bind at 1. rewrite Hs. destruct docs as [|d l]; [contradiction|].
  unfold context_of, lift, py_join, bind. rewrite He. reflexivity.
Qed.

End Answers.
(** ** The contact block, route by route *)

Lemma fallback_prompt_names_contact (intent : Intent) (query prompt : string) :
  fallback_prompt intent query = Some prompt -> names_contact prompt = true.
Proof.
  destruct intent; simpl; intros H; [discriminate| |]; injection H as <-.
  - apply health_general_prompt_names_contact.
  - apply general_knowledge_prompt_names_contact.
Qed.

Lemma context_prompt_names_contact (intent : Intent) (query context : string) :
  names_contact (context_prompt intent query context) = true.
Proof.
  destruct intent; simpl.
  - apply doctor_prompt_names_contact.
  - apply health_prompt_names_contact.
  - apply general_prompt_names_contact.
Qed.

Lemma strs_from_texts (strs : list string) :
  forall i, strs_from i (map PyStr strs) = Ok strs.
Proof.
  induction strs as [|s strs IH]; intros i; [reflexivity|].
  simpl. rewrite IH. reflexivity.
Qed.

Lemma py_join_texts (sep : string) (values : list PyValue) (strs : list string) :
  values = map PyStr strs -> py_join sep values = Ok (join sep strs).
Proof.
  intros ->. unfold py_join. rewrite strs_from_texts. reflexivity.
Qed.

Section ContactBlockByRoute.
Context {W : Type}.
Implicit Types (rt : Runtime W) (query : string).

Lemma composed_direct rt1 prompt text (docs out : list DocumentResponse) rt' :
  bind (agent_run prompt) (fun response => ret (response, out)) rt1
  = (Ok (text, docs), rt') ->
  docs = out /\ generated rt1 rt' (outside rt1) prompt text.
Proof.
  unfold agent_run, bind, get_agent, call, ret, record, generated.
  destruct (run (agent rt1) prompt (outside rt1)) as [[t|e] w]; [|discriminate].
  intros [= <- <- <-]. simpl. rewrite last_snoc. auto.
Qed.

Lemma composed_from_context rt1 (prompt_of : string -> string) text
    (ds docs out : list DocumentResponse) rt' :
  bind (context_of ds) (fun context =>
    bind (agent_run (prompt_of context)) (fun response => ret (response, out))) rt1
  = (Ok (text, docs), rt') ->
  docs = out
  /\ exists strs, map content ds = map PyStr strs
                  /\ generated rt1 rt' (outside rt1) (prompt_of (join nl strs)) text.
Proof.
  unfold context_of, lift. unfold bind at 1.
  destruct (py_join nl (map content ds)) as [context|e] eqn:E; [|discriminate].
  intros H. destruct (composed_direct _ _ _ _ _ _ H) as [Hd Hg].
  destruct (py_join_ok _ _ _ E) as (strs & Hs & ->).
  split; [exact Hd|]. exists strs. auto.
Qed.

Lemma produced_direct rt1 prompt text w :
  run (agent rt1) prompt (outside rt1) = (Ok text, w) ->
  bind (agent_run prompt) (fun response => ret (response, @nil DocumentResponse)) rt1
  = (Ok (text, []), record (AgentRun prompt) rt1 w).
Proof.
  intros Hrun. unfold agent_run, bind, get_agent, call, ret. rewrite Hrun. reflexivity.
Qed.

Lemma produced_from_context rt1 (prompt_of : string -> string)
    (docs : list DocumentResponse) strs text w :
  map content docs = map PyStr strs ->
  run (agent rt1) (prompt_of (join nl strs)) (outside rt1) = (Ok text, w) ->
  bind (context_of docs) (fun context =>
    bind (agent_run (prompt_of context)) (fun response => ret (response, docs))) rt1
  = (Ok (text, docs), record (AgentRun (prompt_of (join nl strs))) rt1 w).
Proof.
  intros Hc Hrun. unfold context_of, lift. unfold bind at 1.
  rewrite (py_join_texts nl _ strs Hc).
  unfold agent_run, bind, get_agent, call, ret. rewrite Hrun. reflexivity.
Qed.

Lemma answer_sound rt query text docs rt' :
  process_query query rt = (Ok (text, docs), rt') ->
  match docs, fallback_prompt (classify query) query with
  | [], None =>
    text = no_doctors_text
    /\ ends_with contact_block text = true
    /\ agent_calls (events rt') = agent_calls (events rt)
  | [], Some prompt =>
    names_contact prompt = true
    /\ exists w, generated rt rt' w prompt text
  | _ :: _, _ =>
    exists strs,
      map content docs = map PyStr strs
      /\ names_contact (context_prompt (classify query) query (join nl strs)) = true
      /\ exists w,
           generated rt rt' w
             (context_prompt (classify query) query (join nl strs)) text
  end.
Proof.
  assert (Hsame : forall rt1 prompt,
            agent rt1 = agent rt ->
            generated rt1 rt' (outside rt1) prompt text ->
            exists w, generated rt rt' w prompt text).
  { intros rt1 prompt Ha [Hl Hr]. exists (outside rt1). split; [exact Hl|].
    rewrite <- Ha. exact Hr. }
  unfold process_query, classify.
  destruct (search_returns rt query default_limit)
    as (ds & rt1 & evs & Hs & _ & Ha & Hev & Hcalls & _).
  destruct (any_keyword doctor_keywords query);
    [|destruct (any_keyword health_keywords query)].
  - unfold process_doctor_query, bind at 1. rewrite Hs.
    destruct (filter _ ds) as [|d l].
    + intros [= <- <- <-]. simpl. split; [reflexivity|].
      split; [exact no_doctors_text_ends_with_contact|].
      rewrite Hev, agent_calls_app, (agent_calls_search_calls _ Hcalls).
      apply app_nil_r.
    + intros H.
      destruct (composed_from_context _ doctor_prompt _ _ _ _ _ H)
        as (-> & strs & Hc & Hg).
      simpl. exists strs. split; [exact Hc|].
      split; [apply doctor_prompt_names_contact|exact (Hsame rt1 _ Ha Hg)].
  - destruct (search_returns rt1 ("doctor treating " +:+ query) default_limit)
      as (ds2 & rt2 & evs2 & Hs2 & _ & Ha2 & _).
    rewrite Ha in Ha2.
    unfold process_health_query, bind at 1 2. rewrite Hs, Hs2.
    destruct (ds ++ filter _ ds2)%list as [|d l].
    + intros H. destruct (composed_direct _ _ _ _ _ _ H) as [-> Hg]. simpl.
      split; [apply health_general_prompt_names_contact|exact (Hsame rt2 _ Ha2 Hg)].
    + intros H.
      destruct (composed_from_context _ (health_prompt query) _ _ _ _ _ H)
        as (-> & strs & Hc & Hg).
      simpl. exists strs. split; [exact Hc|].
      split; [apply health_prompt_names_contact|exact (Hsame rt2 _ Ha2 Hg)].
  - unfold bind at 1. rewrite Hs. destruct ds as [|d l].
    + intros H. destruct (composed_direct _ _ _ _ _ _ H) as [-> Hg]. simpl.
      split; [apply general_knowledge_prompt_names_contact|exact (Hsame rt1 _ Ha Hg)].
    + intros H.
      destruct (composed_from_context _ (general_prompt query) _ _ _ _ _ H)
        as (-> & strs & Hc & Hg).
      simpl. exists strs. split; [exact Hc|].
      split; [apply general_prompt_names_contact|exact (Hsame rt1 _ Ha Hg)].
Qed.

Lemma answer_complete rt query docs1 rt1 :
  search query default_limit rt = (Ok docs1, rt1) ->
  match classify query with
  | PractitionerLookup => answer_produced query rt (doctor_only docs1) rt1
  | ConditionTreatment =>
    forall docs2 rt2,
      search ("doctor treating " +:+ query) default_limit rt1 = (Ok docs2, rt2) ->
      answer_produced query rt (docs1 ++ doctor_only docs2)%list rt2
  | General => answer_produced query rt docs1 rt1
  end.
Proof.
  intros Hs. unfold answer_produced, doctor_only, classify, process_query.
  destruct (any_keyword doctor_keywords query);
    [|destruct (any_keyword health_keywords query)]; simpl.
  - destruct (filter _ docs1) as [|d l] eqn:F.
    + unfold process_doctor_query, bind at 1. rewrite Hs, F. reflexivity.
    + intros strs text w Hc Hrun.
      unfold process_doctor_query, bind at 1. rewrite Hs, F.
      exact (produced_from_context rt1 doctor_prompt (d :: l) strs text w Hc Hrun).
  - intros docs2 rt2 Hs2.
    destruct (docs1 ++ filter _ docs2)%list as [|d l] eqn:F.
    + intros text w Hrun.
      unfold process_health_query, bind at 1 2. rewrite Hs, Hs2, F.
      exact (produced_direct rt2 _ text w Hrun).
    + intros strs text w Hc Hrun.
      unfold process_health_query, bind at 1 2. rewrite Hs, Hs2, F.
      exact (produced_from_context rt2 (health_prompt query) (d :: l) strs text w Hc Hrun).
  - destruct docs1 as [|d l].
    + intros text w Hrun. unfold bind at 1. rewrite Hs.
      exact (produced_direct rt1 _ text w Hrun).
    + intros strs text w Hc Hrun. unfold bind at 1. rewrite Hs.
      exact (produced_from_context rt1 (general_prompt query) (d :: l) strs text w Hc Hrun).
Qed.

(** C1, amended. Which text an answer of [process_query] carries is fixed by
    the route of the query and by whether the answer has supporting
    documents.  A practitioner query ([fallback_prompt] is [None] for that
    route only) answered without documents carries the fixed no-doctor text,
    which ends with the contact block, and the agent was not called.  Every
    other answer carries exactly what the generation agent returned on the
    last call made: for an answer without documents, on the no-context prompt
    of its route (condition/treatment or general); for an answer with
    documents, on the prompt of its route built around the documents'
    contents.  Each of these prompts names the support email and phone.  So
    the text of a generated answer ends with the contact block exactly when
    the agent's output does.  Conversely these answers are produced: from the
    documents the searches of the route retrieve, [process_query] returns
    the fixed text, or the text the agent returns on the prompt of the
    route, whatever that text is. *)
Theorem answer_text_origin rt query :
  (forall text docs rt',
     process_query query rt = (Ok (text, docs), rt') ->
     match docs, fallback_prompt (classify query) query with
     | [], None =>
       text = no_doctors_text
       /\ ends_with contact_block text = true
       /\ agent_calls (events rt') = agent_calls (events rt)
     | [], Some prompt =>
       names_contact prompt = true
       /\ exists w, generated rt rt' w prompt text
     | _ :: _, _ =>
       exists strs,
         map content docs = map PyStr strs
         /\ names_contact (context_prompt (classify query) query (join nl strs)) = true
         /\ exists w,
              generated rt rt' w
                (context_prompt (classify query) query (join nl strs)) text
     end)
  /\ (forall docs1 rt1,
        search query default_limit rt = (Ok docs1, rt1) ->
        match classify query with
        | PractitionerLookup => answer_produced query rt (doctor_only docs1) rt1
        | ConditionTreatment =>
          forall docs2 rt2,
            search ("doctor treating " +:+ query) default_limit rt1 = (Ok docs2, rt2) ->
            answer_produced query rt (docs1 ++ doctor_only docs2)%list rt2
        | General => answer_produced query rt docs1 rt1
        end).
Proof.
  split.
  - intros text docs rt'. apply answer_sound.
  - intros docs1 rt1. apply answer_complete.
Qed.

End ContactBlockByRoute.

(** A general query answered from one document: the text is the agent's, on
    the general prompt built around that document's content. *)
Lemma answer_text_origin_witness :
  (exists strs,
     map content [doc_herb] = map PyStr strs
     /\ names_contact (context_prompt (classify "turmeric benefits")
                         "turmeric benefits" (join nl strs)) = true
     /\ exists w,
          generated runtime_herbs
            (snd (process_query "turmeric benefits" runtime_herbs)) w
            (context_prompt (classify "turmeric benefits") "turmeric benefits"
               (join nl strs))
            "Drink warm water.")
  /\ process_query "turmeric benefits" runtime_herbs
     = (Ok ("Drink warm water.", [doc_herb]),
        record (AgentRun (general_prompt "turmeric benefits" "Turmeric eases inflammation"))
          (snd (search "turmeric benefits" default_limit runtime_herbs)) 3).
Proof.
  split.
  - apply (proj1 (answer_text_origin runtime_herbs "turmeric benefits")
             "Drink warm water." [doc_herb]
             (snd (process_query "turmeric benefits" runtime_herbs))).
    reflexivity.
  - apply (proj2 (answer_text_origin runtime_herbs "turmeric benefits")
             [doc_herb] (snd (search "turmeric benefits" default_limit runtime_herbs))
             eq_refl ["Turmeric eases inflammation"] "Drink warm water." 3).
    + reflexivity.
    + reflexivity.
Defined.

(** The three kinds of answer on the sample collaborators: the fixed text of
    a practitioner query without doctors, the no-context prompt of a
    condition query without results, the context prompt of a general query. *)
Example answer_origins :
  process_query "doctor for migraines" runtime_herbs
  = (Ok (no_doctors_text, []), snd (search "doctor for migraines" 5 runtime_herbs))
  /\ last (events (snd (process_query "how to treat insomnia" runtime_empty)))
     = Some (AgentRun (health_general_prompt "how to treat insomnia"))
  /\ last (events (snd (process_query "turmeric benefits" runtime_herbs)))
     = Some (AgentRun (general_prompt "turmeric benefits" "Turmeric eases inflammation")).
Proof. repeat split; reflexivity. Qed.
(** ** The page *)

Lemma omap_expander_document (format_2f : float -> string) (idx : nat)
    (doc : DocumentResponse) :
  omap expander_label (document_widgets format_2f idx doc)
  = [source_label format_2f idx doc].
Proof.
  unfold document_widgets. destruct (truthy (metadata doc)); reflexivity.
Qed.

Lemma expanders_of_documents (format_2f : float -> string) (docs : list DocumentResponse) :
  forall idx,
    omap expander_label
      (concat (imap (fun i doc => document_widgets format_2f (idx + i) doc) docs))
    = imap (fun i doc => source_label format_2f (idx + i) doc) docs.
Proof.
  induction docs as [|doc docs IH]; intros idx; [reflexivity|].
  rewrite !imap_cons. cbn [concat]. rewrite omap_app, omap_expander_document.
  cbn [app]. f_equal.
  etrans; [|etrans; [exact (IH (S idx))|]].
  - do 2 f_equal. apply imap_ext. intros i d _. simpl. f_equal. lia.
  - apply imap_ext. intros i d _. simpl. f_equal. lia.
Qed.

Section Page.
Context {W : Type}.
Context (format_2f : float -> string).
Implicit Types (rt : Runtime W) (ws : list Widget) (os : OperatingSystem).

Lemma show_document_widgets (idx : nat) (doc : DocumentResponse) rt ws :
  show_document format_2f idx doc (rt, ws)
  = (Ok tt, (rt, (ws ++ document_widgets format_2f idx doc)%list)).
Proof.
  unfold show_document, document_widgets, page_bind, render, page_ret. simpl.
  destruct (truthy (metadata doc)); simpl; rewrite <- !app_assoc; reflexivity.
Qed.

Lemma show_documents_widgets (docs : list DocumentResponse) :
  forall idx rt ws,
    show_documents format_2f idx docs (rt, ws)
    = (Ok tt, (rt, (ws ++ concat (imap (fun i doc =>
                                          document_widgets format_2f (idx + i) doc)
                                       docs))%list)).
Proof.
  induction docs as [|doc docs IH]; intros idx rt ws.
  - simpl. unfold page_ret. rewrite app_nil_r. reflexivity.
  - assert (E : imap (fun i d => document_widgets format_2f (S idx + i) d) docs
                = imap ((fun i d => document_widgets format_2f (idx + i) d) ∘ S) docs).
    { apply imap_ext. intros i d _. simpl. f_equal. lia. }
    cbn [show_documents]. unfold page_bind at 1.
    rewrite show_document_widgets, IH, E, imap_cons. cbn [concat].
    rewrite Nat.add_0_r, <- app_assoc. reflexivity.
Qed.

Lemma sources_rendered (docs : list DocumentResponse) rt ws :
  match docs with
  | [] => page_ret tt
  | _ => page_bind (render (Markdown "### Supporting Information"))
                   (fun _ => show_documents format_2f 1 docs)
  end (rt, ws)
  = (Ok tt, (rt, (ws ++ source_widgets format_2f docs)%list)).
Proof.
  destruct docs as [|d l].
  - unfold page_ret. simpl. rewrite app_nil_r. reflexivity.
  - unfold page_bind, render. cbn [fst snd].
    rewrite show_documents_widgets. unfold source_widgets.
    rewrite <- app_assoc. reflexivity.
Qed.

(** What one run of the script does, by the outcome of its steps. *)
Lemma main_cases os (lib : Libraries W) (new_agent : Result (Agent W))
    (visitor : Visitor) rt ws :
  main format_2f os lib new_agent visitor (rt, ws)
  = match startup os lib new_agent rt with
    | (Raise e, rt1) =>
      (Raise e, (rt1, (ws ++ [SetPageConfig "Ayurveda Expert System" "wide";
                              Title "Ayurveda Expert System"])%list))
    | (Ok _, rt1) =>
      if submitted visitor then
        if String.eqb (typed visitor) ""
        then (Ok tt, (record (StWarning "Please enter a query.") rt1 (outside rt1),
                      (ws ++ page_head)%list))
        else
          match process_query (typed visitor) rt1 with
          | (Raise e, rt2) =>
            (Raise e, (rt2, (ws ++ page_head ++ [Spinner "Processing your query..."])%list))
          | (Ok (text, docs), rt2) =>
            (Ok tt, (rt2, (ws ++ page_head ++ answer_widgets format_2f text docs
                           ++ page_foot)%list))
          end
      else (Ok tt, (rt1, (ws ++ page_head ++ page_foot)%list))
    end.
Proof.
  unfold main, startup, page_head, page_foot, answer_widgets, contact_footer.
  unfold page_bind at 1 2 3. unfold render at 1 2. unfold in_page at 1. simpl.
  unfold bind at 1.
  destruct (load_config os rt) as [[config|e] rt0];
    [|simpl; rewrite <- !app_assoc; reflexivity].
  unfold page_bind at 1. unfold in_page at 1. simpl.
  destruct (AyurvedaExpertSystem_init lib new_agent config rt0) as [[[]|e] rt1];
    [|simpl; rewrite <- !app_assoc; reflexivity].
  unfold page_bind at 1 2. unfold render at 1 2. simpl.
  destruct (submitted visitor).
  - destruct (String.eqb (typed visitor) "").
    + unfold in_page, st_warning. simpl. rewrite <- !app_assoc. reflexivity.
    + unfold page_bind at 1 2. unfold render at 1. unfold in_page. cbn [fst snd].
      destruct (process_query (typed visitor) rt1) as [[[text docs]|e] rt2].
      * cbv beta iota.
        unfold page_bind at 1 2 3. unfold render at 1 2. cbn [fst snd].
        rewrite sources_rendered.
        unfold page_bind, render. simpl. rewrite <- !app_assoc. reflexivity.
      * simpl. rewrite <- !app_assoc. reflexivity.
  - unfold page_bind, render. simpl. rewrite <- !app_assoc. reflexivity.
Qed.

(** Start-up makes no call on the encoder, the index or the agent. *)
Lemma startup_events os (lib : Libraries W) (new_agent : Result (Agent W)) rt :
  exists evs,
    events (snd (startup os lib new_agent rt)) = (events rt ++ evs)%list
    /\ existsb is_pipeline_call evs = false.
Proof.
  unfold startup, load_config. unfold bind at 1 2.
  destruct (load_secrets_toml os) as [toml_config|e]; simpl.
  - destruct (expert_system_init_events lib new_agent
                (apply_env os (toml_config ∪ default_config)) rt)
      as (rest & Hev & _ & Hp).
    eexists. split; [exact Hev|]. simpl. exact Hp.
  - destruct (String.eqb (exc_class e) "FileNotFoundError"); simpl.
    + destruct (expert_system_init_events lib new_agent (apply_env os default_config)
                  (record (StWarning secrets_missing_msg) rt (outside rt)))
        as (rest & Hev & _ & Hp).
      eexists. split; [rewrite Hev; simpl; rewrite <- app_assoc; reflexivity|].
      simpl. exact Hp.
    + exists []. rewrite app_nil_r. auto.
Qed.

(** X19. Pressing Submit on an empty box only warns: the run ends at the
    warning, after the page head, with no search and no generation, and the
    contact footer that every other completed run ends with is not put on
    the page. *)
Theorem empty_query_is_refused os (lib : Libraries W) (new_agent : Result (Agent W))
    (visitor : Visitor) rt ws rt1 :
  startup os lib new_agent rt = (Ok tt, rt1) ->
  submitted visitor = true ->
  typed visitor = "" ->
  main format_2f os lib new_agent visitor (rt, ws)
  = (Ok tt, (record (StWarning "Please enter a query.") rt1 (outside rt1),
             (ws ++ page_head)%list))
  /\ (exists evs, events rt1 = (events rt ++ evs)%list
                  /\ existsb is_pipeline_call evs = false)
  /\ existsb is_Markdown page_head = false.
Proof.
  intros Hstart Hsub Hq. split; [|split; [|reflexivity]].
  - rewrite main_cases, Hstart, Hsub, Hq. reflexivity.
  - pose proof (startup_events os lib new_agent rt) as H.
    rewrite Hstart in H. exact H.
Qed.

(** X20. A run in which Submit was not pressed shows the page head and the
    contact footer and asks nothing of the encoder, the index or the agent;
    the gateway is nevertheless built anew on every such run. *)
Theorem idle_run_shows_footer os (lib : Libraries W) (new_agent : Result (Agent W))
    (visitor : Visitor) rt ws rt1 :
  startup os lib new_agent rt = (Ok tt, rt1) ->
  submitted visitor = false ->
  main format_2f os lib new_agent visitor (rt, ws)
  = (Ok tt, (rt1, (ws ++ page_head ++ page_foot)%list))
  /\ exists evs, events rt1 = (events rt ++ evs)%list
                 /\ existsb is_pipeline_call evs = false
                 /\ existsb is_connect evs = true.
Proof.
  intros Hstart Hsub. split.
  - rewrite main_cases, Hstart, Hsub. reflexivity.
  - revert Hstart. unfold startup, load_config. unfold bind at 1 2.
    assert (Hinit : forall config rt0 pre,
              events rt0 = (events rt ++ pre)%list ->
              existsb is_pipeline_call pre = false ->
              AyurvedaExpertSystem_init lib new_agent config rt0 = (Ok tt, rt1) ->
              exists evs, events rt1 = (events rt ++ evs)%list
                          /\ existsb is_pipeline_call evs = false
                          /\ existsb is_connect evs = true).
    { intros config rt0 pre Hpre Hquiet Hinit.
      destruct (expert_system_init_events lib new_agent config rt0)
        as (rest & Hev & _ & Hp).
      rewrite Hinit in Hev. simpl in Hev.
      eexists. split; [rewrite Hev, Hpre, <- app_assoc; reflexivity|].
      rewrite !existsb_app. simpl. rewrite Hquiet, Hp, orb_true_r. auto. }
    destruct (load_secrets_toml os) as [toml_config|e]; simpl.
    + apply (Hinit _ rt []); [rewrite app_nil_r; reflexivity|reflexivity].
    + destruct (String.eqb (exc_class e) "FileNotFoundError"); simpl; [|discriminate].
      apply (Hinit _ _ [StWarning secrets_missing_msg]); reflexivity.
Qed.

(** X21. An answered query puts on the page, between head and footer, the
    spinner, the response, and the supporting documents if there are any:
    one expander per document, in the order of the answer, labelled Source 1,
    Source 2, ... with the document's confidence. *)
Theorem answer_is_rendered_with_numbered_sources os (lib : Libraries W)
    (new_agent : Result (Agent W)) (visitor : Visitor) rt ws rt1 text docs rt2 :
  startup os lib new_agent rt = (Ok tt, rt1) ->
  submitted visitor = true ->
  typed visitor <> "" ->
  process_query (typed visitor) rt1 = (Ok (text, docs), rt2) ->
  main format_2f os lib new_agent visitor (rt, ws)
  = (Ok tt, (rt2, (ws ++ page_head ++ answer_widgets format_2f text docs
                   ++ page_foot)%list))
  /\ omap expander_label (answer_widgets format_2f text docs)
     = imap (fun i doc => source_label format_2f (S i) doc) docs.
Proof.
  intros Hstart Hsub Hq Hrun. split.
  - rewrite main_cases, Hstart, Hsub.
    destruct (String.eqb (typed visitor) "") eqn:E;
      [apply String.eqb_eq in E; contradiction|].
    rewrite Hrun. reflexivity.
  - unfold answer_widgets, source_widgets. simpl. destruct docs as [|d l]; [reflexivity|].
    cbn [omap list_omap expander_label].
    exact (expanders_of_documents format_2f (d :: l) 1).
Qed.

(** X22. When answering raises, as it does when the generation agent fails,
    the run raises with it: the page stops at the spinner, with neither a
    response nor the contact footer. *)
Theorem failed_answer_stops_the_page os (lib : Libraries W)
    (new_agent : Result (Agent W)) (visitor : Visitor) rt ws rt1 e rt2 :
  startup os lib new_agent rt = (Ok tt, rt1) ->
  submitted visitor = true ->
  typed visitor <> "" ->
  process_query (typed visitor) rt1 = (Raise e, rt2) ->
  main format_2f os lib new_agent visitor (rt, ws)
  = (Raise e, (rt2, (ws ++ page_head ++ [Spinner "Processing your query..."])%list)).
Proof.
  intros Hstart Hsub Hq Hrun. rewrite main_cases, Hstart, Hsub.
  destruct (String.eqb (typed visitor) "") eqn:E;
    [apply String.eqb_eq in E; contradiction|].
  rewrite Hrun. reflexivity.
Qed.

(** X23. A secrets.toml that cannot be read for another reason than being
    absent stops the run before the gateway is built and before the input
    box is shown: the exception leaves [main] with only the page title
    rendered and no call made. *)
Theorem unreadable_secrets_stop_the_page os (lib : Libraries W)
    (new_agent : Result (Agent W)) (visitor : Visitor) rt ws e :
  load_secrets_toml os = Raise e ->
  exc_class e <> "FileNotFoundError" ->
  main format_2f os lib new_agent visitor (rt, ws)
  = (Raise e, (rt, (ws ++ [SetPageConfig "Ayurveda Expert System" "wide";
                           Title "Ayurveda Expert System"])%list)).
Proof.
  intros Hload Hclass. rewrite main_cases.
  unfold startup, load_config. unfold bind at 1 2. rewrite Hload.
  destruct (String.eqb (exc_class e) "FileNotFoundError") eqn:E;
    [apply String.eqb_eq in E; contradiction|].
  reflexivity.
Qed.

End Page.
(** ** The further properties on the sample collaborators *)

Lemma doctor_flag_iff_type_mentions_doctor_witness :
  exists entries meta t,
    payload hit_doctor = Some entries
    /\ dict_get entries "metadata" (PyDict []) = PyDict meta
    /\ dict_get meta "type" (PyStr "") = PyStr t
    /\ (is_doctor_info doc_doctor = true <-> occurs_any_case "doctor" t).
Proof.
  apply (doctor_flag_iff_type_mentions_doctor hit_doctor doc_doctor). reflexivity.
Defined.

Lemma untyped_hit_is_not_doctor_witness :
  exists doc,
    to_document hit_bare = Ok doc
    /\ is_doctor_info doc = false
    /\ content doc = dict_get [("text", PyStr "Neem")] "text" (PyStr "")
    /\ ((forall v, ~ In ("text", v) [("text", PyStr "Neem")]) -> content doc = PyStr "").
Proof.
  apply (untyped_hit_is_not_doctor hit_bare [("text", PyStr "Neem")]).
  - reflexivity.
  - left. intros v [H|[]]. discriminate H.
Defined.

Lemma well_formed_hits_are_all_returned_witness :
  exists docs,
    search "turmeric benefits" 5 runtime_library
    = (Ok docs, {| vector_db := vector_db runtime_library;
                   agent := agent runtime_library; outside := 2;
                   events := ((events runtime_library ++ [Encode "turmeric benefits"])
                              ++ [IndexSearch "myayurhealth_docs" [1%float; 0%float] 5])%list |})
    /\ length docs = length [hit_herb; hit_doctor]
    /\ map confidence docs = map score [hit_herb; hit_doctor]
    /\ Forall2 (fun h d => to_document h = Ok d) [hit_herb; hit_doctor] docs.
Proof.
  apply (well_formed_hits_are_all_returned runtime_library "turmeric benefits" 5
           (index_of [hit_herb; hit_doctor]) encoder "myayurhealth_docs"
           [1%float; 0%float] 1 [hit_herb; hit_doctor] 2).
  - reflexivity.
  - reflexivity.
  - reflexivity.
  - repeat constructor; eexists; reflexivity.
Defined.

Lemma init_success_enables_witness :
  VectorDBService_init libraries_ok (PyStr "https://qdrant.example.com:6333")
    (PyStr "file-key") runtime_blank
  = (Ok tt, {| vector_db := {| client := Some (index_of [hit_herb; hit_doctor]);
                               model := Some encoder;
                               collection_name := Some "myayurhealth_docs" |};
               agent := agent runtime_blank; outside := 2;
               events := (events runtime_blank
                          ++ [NewQdrantClient
                                (connect_location (PyStr "https://qdrant.example.com:6333")
                                                  (PyStr "file-key"));
                              NewSentenceTransformer "all-MiniLM-L6-v2"])%list |}).
Proof.
  apply (init_success_enables libraries_ok (PyStr "https://qdrant.example.com:6333")
           (PyStr "file-key") runtime_blank (index_of [hit_herb; hit_doctor]) 1
           encoder 2).
  - reflexivity.
  - reflexivity.
Defined.

Lemma init_failure_latches_witness :
  exists rt',
    VectorDBService_init libraries_no_model PyNone PyNone runtime_blank = (Ok tt, rt')
    /\ client (vector_db rt') = None /\ model (vector_db rt') = None
    /\ last (events rt')
       = Some (StError (init_error_msg
                          (Raised "OSError" "all-MiniLM-L6-v2 is not a local folder")))
    /\ contains SUPPORT_EMAIL
         (init_error_msg (Raised "OSError" "all-MiniLM-L6-v2 is not a local folder")) = true
    /\ contains SUPPORT_PHONE
         (init_error_msg (Raised "OSError" "all-MiniLM-L6-v2 is not a local folder")) = true
    /\ forall query limit, search query limit rt' = (Ok [], rt').
Proof.
  apply (init_failure_latches libraries_no_model PyNone PyNone runtime_blank
           (Raised "OSError" "all-MiniLM-L6-v2 is not a local folder")).
  right. exists (index_of [hit_doctor]), 1, 2. split; reflexivity.
Defined.

Lemma no_credential_means_in_memory_witness :
  exists rest,
    events (snd (startup os_url_only libraries_ok (Ok agent_terse) runtime_blank))
    = (events runtime_blank
       ++ StWarning secrets_missing_msg :: NewQdrantClient InMemory :: rest)%list
    /\ existsb is_connect rest = false.
Proof.
  apply (no_credential_means_in_memory os_url_only libraries_ok (Ok agent_terse)
           runtime_blank FileNotFoundError).
  - reflexivity.
  - reflexivity.
  - left. reflexivity.
Defined.

Lemma load_config_keys_witness :
  exists config,
    load_config os_file_and_env runtime_blank = (Ok config, runtime_blank)
    /\ (forall key, is_Some (config !! key) <->
                    is_Some (secrets_file !! key)
                    \/ key = "QDRANT_URL" \/ key = "QDRANT_API_KEY")
    /\ (forall key v, secrets_file !! key = Some v ->
                      config !! key = Some (env_or os_file_and_env key v)).
Proof.
  apply (load_config_keys os_file_and_env runtime_blank secrets_file). reflexivity.
Defined.

Lemma process_query_failures_witness :
  (exists prompt w,
     last (events (snd (process_query "turmeric benefits"
                          (with_agent agent_down runtime_herbs))))
     = Some (AgentRun prompt)
     /\ run (agent (with_agent agent_down runtime_herbs)) prompt w
        = (Raise (Raised "APIConnectionError" "Connection error."),
           outside (snd (process_query "turmeric benefits"
                           (with_agent agent_down runtime_herbs)))))
  \/ (exc_class (Raised "APIConnectionError" "Connection error.") = "TypeError"
      /\ agent_calls (events (snd (process_query "turmeric benefits"
                                     (with_agent agent_down runtime_herbs))))
         = agent_calls (events (with_agent agent_down runtime_herbs))).
Proof.
  apply (process_query_failures (with_agent agent_down runtime_herbs)
           "turmeric benefits" (Raised "APIConnectionError" "Connection error.")
           (snd (process_query "turmeric benefits"
                   (with_agent agent_down runtime_herbs)))).
  reflexivity.
Defined.

Lemma answers_cite_their_context_witness :
  exists strs,
    map content [doc_herb; doc_doctor; doc_doctor] = map PyStr strs
    /\ last (events (snd (process_query "how to treat insomnia" runtime_library)))
       = Some (AgentRun (context_prompt (classify "how to treat insomnia")
                           "how to treat insomnia" (join nl strs))).
Proof.
  apply (answers_cite_their_context runtime_library "how to treat insomnia"
           "Drink warm water." [doc_herb; doc_doctor; doc_doctor]
           (snd (process_query "how to treat insomnia" runtime_library))).
  reflexivity.
Defined.

Lemma practitioner_answers_list_only_doctors_witness :
  Forall (fun doc => is_doctor_info doc = true) [doc_doctor].
Proof.
  apply (practitioner_answers_list_only_doctors runtime_library "doctor for migraines"
           "Drink warm water." [doc_doctor]
           (snd (process_query "doctor for migraines" runtime_library))).
  - reflexivity.
  - reflexivity.
Defined.

Lemma disabled_gateway_degrades_witness :
  process_query "how to treat insomnia" runtime_latched
  = (Ok ("Drink warm water.", []),
     record (AgentRun (health_general_prompt "how to treat insomnia")) runtime_latched 3).
Proof.
  apply (disabled_gateway_degrades runtime_latched "how to treat insomnia").
  left. reflexivity.
Defined.

Lemma non_text_content_is_fatal_witness :
  exists e,
    process_query "ashwagandha" (runtime_of (index_of [hit_herb; hit_numeric_text]) encoder)
    = (Raise e, snd (search "ashwagandha" default_limit
                       (runtime_of (index_of [hit_herb; hit_numeric_text]) encoder)))
    /\ exc_class e = "TypeError".
Proof.
  apply (non_text_content_is_fatal
           (runtime_of (index_of [hit_herb; hit_numeric_text]) encoder) "ashwagandha"
           [doc_herb;
            {| content := PyInt 7; confidence := 0.5%float;
               metadata := PyDict [("type", PyStr "Herb")]; is_doctor_info := false |}]
           (snd (search "ashwagandha" default_limit
                   (runtime_of (index_of [hit_herb; hit_numeric_text]) encoder)))
           {| content := PyInt 7; confidence := 0.5%float;
              metadata := PyDict [("type", PyStr "Herb")]; is_doctor_info := false |}).
  - reflexivity.
  - reflexivity.
  - simpl. auto.
  - intros s H. discriminate H.
Defined.

Lemma empty_query_is_refused_witness :
  main format_sample os_bare libraries_ok (Ok agent_terse) visitor_hasty (runtime_blank, [])
  = (Ok tt,
     (record (StWarning "Please enter a query.")
        (snd (startup os_bare libraries_ok (Ok agent_terse) runtime_blank))
        (outside (snd (startup os_bare libraries_ok (Ok agent_terse) runtime_blank))),
      ([] ++ page_head)%list))
  /\ (exists evs,
        events (snd (startup os_bare libraries_ok (Ok agent_terse) runtime_blank))
        = (events runtime_blank ++ evs)%list
        /\ existsb is_pipeline_call evs = false)
  /\ existsb is_Markdown page_head = false.
Proof.
  apply (empty_query_is_refused format_sample os_bare libraries_ok (Ok agent_terse)
           visitor_hasty runtime_blank []
           (snd (startup os_bare libraries_ok (Ok agent_terse) runtime_blank))).
  - reflexivity.
  - reflexivity.
  - reflexivity.
Defined.

Lemma idle_run_shows_footer_witness :
  main format_sample os_bare libraries_ok (Ok agent_terse) visitor_idle (runtime_blank, [])
  = (Ok tt, (snd (startup os_bare libraries_ok (Ok agent_terse) runtime_blank),
             ([] ++ page_head ++ page_foot)%list))
  /\ exists evs,
       events (snd (startup os_bare libraries_ok (Ok agent_terse) runtime_blank))
       = (events runtime_blank ++ evs)%list
       /\ existsb is_pipeline_call evs = false
       /\ existsb is_connect evs = true.
Proof.
  apply (idle_run_shows_footer format_sample os_bare libraries_ok (Ok agent_terse)
           visitor_idle runtime_blank []
           (snd (startup os_bare libraries_ok (Ok agent_terse) runtime_blank))).
  - reflexivity.
  - reflexivity.
Defined.

Lemma answer_is_rendered_with_numbered_sources_witness :
  main format_sample os_bare libraries_ok (Ok agent_terse) visitor_asking (runtime_blank, [])
  = (Ok tt,
     (snd (process_query "how to treat insomnia"
             (snd (startup os_bare libraries_ok (Ok agent_terse) runtime_blank))),
      ([] ++ page_head
       ++ answer_widgets format_sample "Drink warm water."
            [doc_herb; doc_doctor; doc_doctor]
       ++ page_foot)%list))
  /\ omap expander_label
       (answer_widgets format_sample "Drink warm water."
          [doc_herb; doc_doctor; doc_doctor])
     = imap (fun i doc => source_label format_sample (S i) doc)
         [doc_herb; doc_doctor; doc_doctor].
Proof.
  apply (answer_is_rendered_with_numbered_sources format_sample os_bare libraries_ok
           (Ok agent_terse) visitor_asking runtime_blank []
           (snd (startup os_bare libraries_ok (Ok agent_terse) runtime_blank))
           "Drink warm water." [doc_herb; doc_doctor; doc_doctor]
           (snd (process_query "how to treat insomnia"
                   (snd (startup os_bare libraries_ok (Ok agent_terse) runtime_blank))))).
  - reflexivity.
  - reflexivity.
  - discriminate.
  - reflexivity.
Defined.

Lemma failed_answer_stops_the_page_witness :
  main format_sample os_bare libraries_ok (Ok agent_down) visitor_asking (runtime_blank, [])
  = (Raise (Raised "APIConnectionError" "Connection error."),
     (snd (process_query "how to treat insomnia"
             (snd (startup os_bare libraries_ok (Ok agent_down) runtime_blank))),
      ([] ++ page_head ++ [Spinner "Processing your query..."])%list)).
Proof.
  apply (failed_answer_stops_the_page format_sample os_bare libraries_ok
           (Ok agent_down) visitor_asking runtime_blank []
           (snd (startup os_bare libraries_ok (Ok agent_down) runtime_blank))
           (Raised "APIConnectionError" "Connection error.")
           (snd (process_query "how to treat insomnia"
                   (snd (startup os_bare libraries_ok (Ok agent_down) runtime_blank))))).
  - reflexivity.
  - reflexivity.
  - discriminate.
  - reflexivity.
Defined.

Lemma unreadable_secrets_stop_the_page_witness :
  main format_sample os_broken_file libraries_ok (Ok agent_terse) visitor_asking
    (runtime_blank, [])
  = (Raise (Raised "TomlDecodeError" "Invalid date or number"),
     (runtime_blank, ([] ++ [SetPageConfig "Ayurveda Expert System" "wide";
                             Title "Ayurveda Expert System"])%list)).
Proof.
  apply (unreadable_secrets_stop_the_page format_sample os_broken_file libraries_ok
           (Ok agent_terse) visitor_asking runtime_blank []
           (Raised "TomlDecodeError" "Invalid date or number")).
  - reflexivity.
  - discriminate.
Defined.

(** ** Further scenarios *)

Example classify_inside_a_word : classify "yoga retreat" = ConditionTreatment.
Proof. reflexivity. Qed.

Example source_labels_of_an_answer :
  omap expander_label
    (answer_widgets format_sample "Drink warm water." [doc_herb; doc_doctor; doc_doctor])
  = ["Source 1 (Confidence: 0.50)"; "Source 2 (Confidence: 0.75)";
     "Source 3 (Confidence: 0.75)"].
Proof. reflexivity. Qed.

Example endpoint_without_credential_is_in_memory :
  events (snd (startup os_url_only libraries_ok (Ok agent_terse) runtime_blank))
  = [StWarning secrets_missing_msg; NewQdrantClient InMemory;
     NewSentenceTransformer "all-MiniLM-L6-v2"].
Proof. reflexivity. Qed.

Example hasty_page :
  snd (snd (main format_sample os_bare libraries_ok (Ok agent_terse) visitor_hasty
              (runtime_blank, [])))
  = page_head.
Proof. reflexivity. Qed.
